(** * scroll: batch proving-task dispatcher and commitment relayer

    A shallow embedding of

    - [coordinator/internal/logic/provertask/batch_prover_task.go]
      ([Collect], [formatProverTask]) and
    - [bridge/l2/relayer_commit.go]
      ([commitInit], [committedPack], [ProcessPendingBatches]),

    followed by the properties established about them.

    Go functions that return [(value, error)] are modelled as functions
    returning a pair whose second component is [option error] ([None] is
    Go's [nil] error).  Code that can panic returns an [outcome].  The
    persistent store, the transaction sender, the JSON and ABI codecs and
    the go-ethereum helpers are collaborators of the two files: they are
    taken as the fields of an interface record, so every property holds for
    any implementation of them. *)

From Stdlib Require Import ZArith Ascii String List Lia Bool.
From Stdlib Require Import Strings.Byte.
From stdpp Require Import base option list strings pretty gmap.
Import ListNotations.

Local Open Scope string_scope.
Local Open Scope list_scope.
Local Open Scope Z_scope.

(** ** Go values shared by both packages *)

Module go.

(** Go [error] values.  [fmt_Errorf] keeps the format string of the call
    site and the string operands; [fmt_Errorf_w] is a format that ends in
    [%w] and wraps [cause]. *)
Inductive error : Type :=
| errors_New (msg : string)
| fmt_Errorf (format : string) (operands : list string)
| fmt_Errorf_w (format : string) (operands : list string) (cause : error).

(** A call either returns or panics (failed type assertion, index out of
    range, nil dereference). *)
Inductive outcome (A : Type) : Type :=
| Return (a : A)
| Panics (reason : string).
Arguments Return {A} a.
Arguments Panics {A} reason.

#[global] Instance error_eq_dec : EqDecision error.
Proof.
  intros x; induction x as [m|f o|f o c IH]; intros [m'|f' o'|f' o' c'];
    try (right; discriminate).
  - destruct (decide (m = m')) as [->|]; [left; reflexivity|right; congruence].
  - destruct (decide (f = f')) as [->|]; [|right; congruence].
    destruct (decide (o = o')) as [->|]; [left; reflexivity|right; congruence].
  - destruct (decide (f = f')) as [->|]; [|right; congruence].
    destruct (decide (o = o')) as [->|]; [|right; congruence].
    destruct (IH c') as [->|]; [left; reflexivity|right; congruence].
Defined.

(** [errors.Is]: walks the chain of wrapped errors. *)
Fixpoint errors_Is (err target : error) : bool :=
  if decide (err = target) then true
  else match err with
       | fmt_Errorf_w _ _ cause => errors_Is cause target
       | _ => false
       end.

(** [[]byte] and the conversion [string(b)]. *)
Definition bytes : Type := list byte.

Definition string_of_bytes (b : bytes) : string := string_of_list_byte b.

(** [uint64] arithmetic wraps around. *)
Definition uint64 (z : Z) : Z := z mod 2 ^ 64.

End go.
Export go.

(** ** coordinator/internal/logic/provertask/batch_prover_task.go *)

Module provertask.

(** The 32-byte [common.Hash], as the number it spells. *)
Definition Hash : Type := Z.

(** [message.ProofType]. *)
Inductive ProofType : Type :=
| ProofTypeUndefined
| ProofTypeChunk
| ProofTypeBatch.

(** [types.ProvingStatus], the proving status of a chunk or batch row. *)
Inductive ProvingStatus : Type :=
| ProvingStatusUndefined
| ProvingTaskUnassigned
| ProvingTaskAssigned
| ProvingTaskProved
| ProvingTaskVerified
| ProvingTaskFailed.

(** [types.ProverProveStatus], the status of one assignment record. *)
Inductive ProverProveStatus : Type :=
| ProverProveStatusUndefined
| ProverAssigned
| ProverProofValid
| ProverProofInvalid.

(** [types.ProverTaskFailureType]. *)
Inductive ProverTaskFailureType : Type :=
| ProverTaskFailureTypeUndefined
| ProverTaskFailureTypeTimeout.

#[global] Instance ProofType_eq_dec : EqDecision ProofType.
Proof. solve_decision. Defined.
#[global] Instance ProvingStatus_eq_dec : EqDecision ProvingStatus.
Proof. solve_decision. Defined.
#[global] Instance ProverProveStatus_eq_dec : EqDecision ProverProveStatus.
Proof. solve_decision. Defined.

(** [orm.Batch]: the columns the collector and the attempt guard look at. *)
Record Batch : Type := {
  Batch_Index : Z;
  Batch_Hash : string;
  Batch_ProvingStatus : ProvingStatus
}.

(** [orm.Chunk]. *)
Record Chunk : Type := {
  Chunk_Hash : string;
  Chunk_ParentChunkStateRoot : string;
  Chunk_StateRoot : string;
  Chunk_WithdrawRoot : string;
  Chunk_Proof : bytes;
  Chunk_BatchHash : string
}.

(** [orm.ProverTask], the assignment record. *)
Record ProverTask : Type := {
  TaskID : string;
  ProverPublicKey : string;
  TaskType : ProofType;
  ProverName : string;
  ProvingStatus_ : ProverProveStatus;
  FailureType : ProverTaskFailureType;
  AssignedAt : Z
}.

(** [message.ChunkInfo]. *)
Record ChunkInfo : Type := {
  ChainID : Z;
  PrevStateRoot : Hash;
  PostStateRoot : Hash;
  WithdrawRoot : Hash;
  DataHash : Hash;
  IsPadding : bool
}.

(** [message.BatchTaskDetail]; [message.ChunkProof] is a type parameter. *)
Record BatchTaskDetail (ChunkProof : Type) : Type := {
  ChunkInfos : list ChunkInfo;
  ChunkProofs : list ChunkProof
}.
Arguments ChunkInfos {ChunkProof} _.
Arguments ChunkProofs {ChunkProof} _.

(** [coordinatorType.ProverTaskSchema], the payload handed to a prover. *)
Record ProverTaskSchema : Type := {
  Schema_TaskID : string;
  Schema_ProofType : ProofType;
  Schema_ProofData : string
}.

(** A value of type [interface{}] stored in the request context. *)
Inductive any : Type :=
| any_string (s : string)
| any_int (n : Z).

(** [gin.Context]: the keys set by the authentication middleware. *)
Abbreviation gin_Context := (gmap string any).

Definition ctx_Get (ctx : gin_Context) (key : string) : option any := ctx !! key.

(** The type assertion [v.(string)]. *)
Definition assert_string (v : any) : outcome string :=
  match v with
  | any_string s => Return s
  | any_int _ => Panics "interface conversion: interface {} is not string"
  end.

(** *** The store connection

    [committed] is what every connection to the store reads; [pending] is
    the private view of the transaction this connection has open, if any;
    [seen] lists, newest first, the values [committed] took through this
    connection's writes: the states other connections could observe. *)
Record Conn (DB : Type) : Type := {
  committed : DB;
  pending : option DB;
  seen : list DB
}.
Arguments committed {DB} _.
Arguments pending {DB} _.
Arguments seen {DB} _.

(** The [*gorm.DB] an ORM call is given: the collector's own handle
    [bp.db], or the [tx] passed to the closure of [Transaction]. *)
Inductive handle : Type :=
| bp_db
| tx.

Section Collector.
Context {DB ChunkProof : Type}.

(** What a [BatchProverTask] holds and calls.  The embedded
    [BaseCollector] supplies [cfg], the three ORM objects, the gorm handle
    and the attempt guard; the remaining fields are the package-level
    helpers the two methods use. *)
Record BatchProverTask : Type := {
  cfg_L2Config_ChainID : Z;
  (* orm.Batch *)
  batchOrm_GetUnassignedBatches : DB -> nat -> list Batch * option error;
  batchOrm_UpdateProvingStatus : string -> ProvingStatus -> DB -> option error * DB;
  (* orm.ProverTask *)
  proverTaskOrm_SetProverTask : ProverTask -> DB -> option error * DB;
  (* orm.Chunk *)
  chunkOrm_GetChunksByBatchHash : DB -> string -> list Chunk * option error;
  (* BaseCollector.checkAttemptsExceeded: true when still eligible *)
  checkAttemptsExceeded : string -> ProofType -> DB -> bool * DB;
  (* gorm: failures of BEGIN and of COMMIT *)
  db_Begin : DB -> option error;
  db_Commit : DB -> option error;
  (* coordinatorType.PublicKey, coordinatorType.ProverName *)
  coordinatorType_PublicKey : string;
  coordinatorType_ProverName : string;
  (* utils.NowUTC(), json.Unmarshal, json.Marshal, common.HexToHash *)
  utils_NowUTC : Z;
  json_Unmarshal : bytes -> ChunkProof * option error;
  json_Marshal : BatchTaskDetail ChunkProof -> bytes * option error;
  common_HexToHash : string -> Hash
}.

Variable bp : BatchProverTask.

(** Runs a store write through handle [h]: on [tx] inside an open
    transaction it touches the private view only; otherwise it is applied
    to the committed store at once. *)
Definition exec (h : handle) (op : DB -> option error * DB) (c : Conn DB)
  : option error * Conn DB :=
  match h, pending c with
  | tx, Some p =>
      let '(err, p') := op p in
      (err, {| committed := committed c; pending := Some p'; seen := seen c |})
  | _, _ =>
      let '(err, d') := op (committed c) in
      (err, {| committed := d'; pending := pending c; seen := d' :: seen c |})
  end.

Definition rollback (c : Conn DB) : Conn DB :=
  {| committed := committed c; pending := None; seen := seen c |}.

(** [bp.db.Transaction(fc)]: begins, runs [fc tx], commits when [fc]
    returns nil; rolls back when [fc] returns an error, when it panics
    (the panic goes on) and when the commit fails. *)
Definition Transaction (fc : handle -> Conn DB -> outcome (option error) * Conn DB)
  (c : Conn DB) : outcome (option error) * Conn DB :=
  match db_Begin bp (committed c) with
  | Some err => (Return (Some err), c)
  | None =>
      let c0 := {| committed := committed c; pending := Some (committed c); seen := seen c |} in
      match fc tx c0 with
      | (Return None, c1) =>
          match pending c1 with
          | Some p =>
              match db_Commit bp p with
              | None => (Return None, {| committed := p; pending := None; seen := p :: seen c1 |})
              | Some err => (Return (Some err), rollback c1)
              end
          | None => (Return None, c1)
          end
      | (Return (Some err), c1) => (Return (Some err), rollback c1)
      | (Panics reason, c1) => (Panics reason, rollback c1)
      end
  end.

(** The loop of [formatProverTask] over the chunks of the batch, with the
    two slices it appends to. *)
Fixpoint formatChunks (taskID : string) (chunks : list Chunk)
  (chunkProofs : list ChunkProof) (chunkInfos : list ChunkInfo)
  : (list ChunkProof * list ChunkInfo) + error :=
  match chunks with
  | [] => inl (chunkProofs, chunkInfos)
  | chunk :: rest =>
      match json_Unmarshal bp (Chunk_Proof chunk) with
      | (_, Some encodeErr) =>
          inr (fmt_Errorf_w
                 "Chunk.GetProofsByBatchHash unmarshal proof error: %w, batch hash: %v, chunk hash: %v"
                 [taskID; Chunk_Hash chunk] encodeErr)
      | (proof, None) =>
          let chunkInfo :=
            {| ChainID := cfg_L2Config_ChainID bp;
               PrevStateRoot := common_HexToHash bp (Chunk_ParentChunkStateRoot chunk);
               PostStateRoot := common_HexToHash bp (Chunk_StateRoot chunk);
               WithdrawRoot := common_HexToHash bp (Chunk_WithdrawRoot chunk);
               DataHash := common_HexToHash bp (Chunk_Hash chunk);
               IsPadding := false |} in
          formatChunks taskID rest (chunkProofs ++ [proof]) (chunkInfos ++ [chunkInfo])
      end
  end.

(** [formatProverTask]: reads the committed store, writes nothing. *)
Definition formatProverTask (d : DB) (taskID : string)
  : option ProverTaskSchema * option error :=
  match chunkOrm_GetChunksByBatchHash bp d taskID with
  | (_, Some err) =>
      (None, Some (fmt_Errorf_w "failed to get chunk proofs for batch task id:%s err:%w "
                     [taskID] err))
  | (chunks, None) =>
      match formatChunks taskID chunks [] [] with
      | inr err => (None, Some err)
      | inl (chunkProofs, chunkInfos) =>
          let taskDetail := {| ChunkInfos := chunkInfos; ChunkProofs := chunkProofs |} in
          match json_Marshal bp taskDetail with
          | (_, Some err) =>
              (None, Some (fmt_Errorf_w "failed to marshal chunk proofs, taskID:%s err:%w"
                             [taskID] err))
          | (chunkProofsBytes, None) =>
              (Some {| Schema_TaskID := taskID;
                       Schema_ProofType := ProofTypeBatch;
                       Schema_ProofData := string_of_bytes chunkProofsBytes |}, None)
          end
      end
  end.

(** The closure passed to [Transaction] in [Collect]. *)
Definition assignment (batchTask : Batch) (publicKey proverName : any)
  (h : handle) (c : Conn DB) : outcome (option error) * Conn DB :=
  (* Update session proving status as assigned. *)
  match exec h (batchOrm_UpdateProvingStatus bp (Batch_Hash batchTask) ProvingTaskAssigned) c with
  | (Some err, c1) =>
      (Return (Some (fmt_Errorf_w "failed to update task status, id:%s, error:%w"
                       [Batch_Hash batchTask] err)), c1)
  | (None, c1) =>
      match assert_string publicKey with
      | Panics reason => (Panics reason, c1)
      | Return publicKey_string =>
          match assert_string proverName with
          | Panics reason => (Panics reason, c1)
          | Return proverName_string =>
              let proverTask :=
                {| TaskID := Batch_Hash batchTask;
                   ProverPublicKey := publicKey_string;
                   TaskType := ProofTypeBatch;
                   ProverName := proverName_string;
                   ProvingStatus_ := ProverAssigned;
                   FailureType := ProverTaskFailureTypeUndefined;
                   AssignedAt := utils_NowUTC bp |} in
              (* Store session info. *)
              match exec h (proverTaskOrm_SetProverTask bp proverTask) c1 with
              | (Some err, c2) =>
                  (Return (Some (fmt_Errorf_w "db set session info fail, session id:%s, error:%w"
                                   [TaskID proverTask] err)), c2)
              | (None, c2) => (Return None, c2)
              end
          end
      end
  end.

(** [Collect]: load and send batch tasks.  (The [log.Info] line of the
    method is not modelled.) *)
Definition Collect (ctx : gin_Context) (c : Conn DB)
  : outcome (option ProverTaskSchema * option error) * Conn DB :=
  match batchOrm_GetUnassignedBatches bp (committed c) 1 with
  | (_, Some err) =>
      (Return (None, Some (fmt_Errorf_w
                             "failed to get unassigned batch proving tasks, error:%w" [] err)), c)
  | (batchTasks, None) =>
      match batchTasks with
      | [] => (Return (None, None), c)
      | batchTask :: others =>
          if negb (Nat.eqb (length batchTasks) 1) then
            (Return (None, Some (fmt_Errorf
                                   "get unassigned batch proving task len not 1, batch tasks:%v"
                                   (map Batch_Hash batchTasks))), c)
          else
            let '(eligible, d) :=
              checkAttemptsExceeded bp (Batch_Hash batchTask) ProofTypeBatch (committed c) in
            let c1 := {| committed := d; pending := pending c; seen := d :: seen c |} in
            if negb eligible then
              (Return (None, Some (fmt_Errorf
                                     "the batch task id:%s check attempts have reach the maximum"
                                     [Batch_Hash batchTask])), c1)
            else
              match ctx_Get ctx (coordinatorType_PublicKey bp) with
              | None => (Return (None, Some (fmt_Errorf "get public key from contex failed" [])), c1)
              | Some publicKey =>
                  match ctx_Get ctx (coordinatorType_ProverName bp) with
                  | None =>
                      (Return (None, Some (fmt_Errorf "get prover name from contex failed" [])), c1)
                  | Some proverName =>
                      match Transaction (assignment batchTask publicKey proverName) c1 with
                      | (Panics reason, c2) => (Panics reason, c2)
                      | (Return (Some transErr), c2) => (Return (None, Some transErr), c2)
                      | (Return None, c2) =>
                          match formatProverTask (committed c2) (Batch_Hash batchTask) with
                          | (_, Some err) =>
                              (Return (None, Some (fmt_Errorf_w
                                                     "format prover failure, id:%s error:%w"
                                                     [Batch_Hash batchTask] err)), c2)
                          | (taskMsg, None) => (Return (taskMsg, None), c2)
                          end
                      end
                  end
              end
      end
  end.

End Collector.
Arguments BatchProverTask : clear implicits.

End provertask.

(** ** bridge/l2/relayer_commit.go *)

Module l2.

(** [common.Hash] and [common.Address], as the numbers they spell. *)
Definition Hash : Type := Z.
Definition Address : Type := Z.

(** [orm.RollupStatus]. *)
Inductive RollupStatus : Type :=
| RollupUndefined
| RollupPending
| RollupCommitting
| RollupCommitted
| RollupFinalizing
| RollupFinalized
| RollupFinalizationSkipped.

#[global] Instance RollupStatus_eq_dec : EqDecision RollupStatus.
Proof. solve_decision. Defined.

(** [sql.NullString]. *)
Record NullString : Type := {
  NullString_String : string;
  NullString_Valid : bool
}.

(** [orm.BlockBatch]: the columns the relayer reads or writes. *)
Record BlockBatch : Type := {
  BlockBatch_ID : string;
  BlockBatch_Index : Z;
  BlockBatch_ParentHash : string;
  BlockBatch_RollupStatus : RollupStatus;
  BlockBatch_CommitTxHash : NullString
}.

(** [types.Header] of a block; its [Hash()] is a collaborator. *)
Record Header : Type := {
  Header_ParentHash : Hash;
  Header_Number : Z;
  Header_Time : Z;
  Header_BaseFee : option Z
}.

(** [types.TransactionData]; [To] is nil for a contract creation. *)
Record TransactionData : Type := {
  tx_From : Address;
  tx_Nonce : Z;
  tx_Gas : Z;
  tx_GasPrice : Z;
  tx_Value : Z;
  tx_Data : string;
  tx_R : Z;
  tx_S : Z;
  tx_V : Z;
  tx_To : option Address
}.

(** [types.ExecutionResult]. *)
Record ExecutionResult : Type := {
  ExecutionResult_Gas : Z
}.

(** [types.BlockTrace] (the row of one L2 block). *)
Record BlockTrace : Type := {
  trace_Header : Header;
  trace_StorageTrace_RootAfter : Hash;
  trace_Transactions : list TransactionData;
  trace_ExecutionResults : list ExecutionResult
}.

(** A trace is well formed when it has an execution result for each of
    its transactions. *)
Definition results_cover (trace : BlockTrace) : Prop :=
  (length (trace_Transactions trace) ≤ length (trace_ExecutionResults trace))%nat.

(** [bridge_abi.IZKRollupLayer2Transaction]; [sig_R], [sig_S] and [sig_V]
    are its fields [R], [S] and [V]. *)
Record IZKRollupLayer2Transaction : Type := {
  Caller : Address;
  Nonce : Z;
  Target : Address;
  Gas : Z;
  GasPrice : Z;
  Value : Z;
  Data : bytes;
  sig_R : Z;
  sig_S : Z;
  sig_V : Z
}.

(** [bridge_abi.IZKRollupLayer2BlockHeader]. *)
Record IZKRollupLayer2BlockHeader : Type := {
  BlockHash : Hash;
  ParentHash : Hash;
  BaseFee : option Z;
  StateRoot : Hash;
  BlockHeight : Z;
  GasUsed : Z;
  Timestamp : Z;
  ExtraData : bytes;
  Txs : list IZKRollupLayer2Transaction
}.

(** [bridge_abi.IZKRollupLayer2Batch]. *)
Record IZKRollupLayer2Batch : Type := {
  BatchIndex : Z;
  Batch_ParentHash : Hash;
  Blocks : list IZKRollupLayer2BlockHeader
}.

(** One line written through [log.Error] or [log.Info]. *)
Inductive log_entry : Type :=
| log_Error (msg : string) (id : string) (err : option error)
| log_Info (msg : string) (id : string).

(** [big.Int.Uint64]: the low 64 bits of the magnitude. *)
Definition Uint64 (z : Z) : Z := uint64 (Z.abs z).

(** Dereferencing a [*orm.BlockBatch]. *)
Definition deref {A : Type} (p : option A) : outcome A :=
  match p with
  | Some a => Return a
  | None => Panics "invalid memory address or nil pointer dereference"
  end.

Section Relayer.
Context {DB Sender : Type}.

(** What the relayer methods call: the store ([r.db]), the transaction
    sender ([r.rollupSender]), the ABI binding and the go-ethereum helpers,
    with the configured contract address. *)
Record Collaborators : Type := {
  (* database/orm *)
  db_GetBatchesByRollupStatus : DB -> RollupStatus -> nat -> list string * option error;
  db_GetCommitTxHash : DB -> string -> NullString * option error;
  db_GetBlockBatches : DB -> string -> list BlockBatch * option error;
  db_GetBlockTraces : DB -> string -> list BlockTrace * option error;
  db_GetPendingBatches : DB -> nat -> list string * option error;
  db_UpdateCommitTxHashAndRollupStatus :
    DB -> string -> string -> RollupStatus -> option error * DB;
  (* bridge/sender *)
  sender_SendTransaction :
    Sender -> string -> Address -> Z -> bytes -> (Hash * option error) * Sender;
  sender_LoadOrSendTx :
    Sender -> Hash -> string -> Address -> Z -> bytes -> option error * Sender;
  sender_ErrNoAvailableAccount : error;
  (* bridge_abi.RollupMetaABI.Pack *)
  RollupMetaABI_Pack : string -> IZKRollupLayer2Batch -> bytes * option error;
  (* go-ethereum *)
  common_HexToHash : string -> Hash;
  common_Hex2Bytes : string -> bytes;
  Header_Hash : Header -> Hash;
  Hash_String : Hash -> string;
  (* r.cfg *)
  cfg_RollupContractAddress : Address
}.

(** The mutable parts of a [Layer2Relayer]: the store, the sender, the
    in-flight commit map ([sync.Map]) and the log it writes. *)
Record Layer2Relayer : Type := {
  db : DB;
  rollupSender : Sender;
  processingCommitment : gmap string string;
  logged : list log_entry
}.

Definition log (entry : log_entry) (r : Layer2Relayer) : Layer2Relayer :=
  {| db := db r; rollupSender := rollupSender r;
     processingCommitment := processingCommitment r;
     logged := logged r ++ [entry] |}.

Definition set_db (d : DB) (r : Layer2Relayer) : Layer2Relayer :=
  {| db := d; rollupSender := rollupSender r;
     processingCommitment := processingCommitment r; logged := logged r |}.

Definition set_rollupSender (s : Sender) (r : Layer2Relayer) : Layer2Relayer :=
  {| db := db r; rollupSender := s;
     processingCommitment := processingCommitment r; logged := logged r |}.

(** [r.processingCommitment.Store(txID, id)]. *)
Definition processingCommitment_Store (txID id : string) (r : Layer2Relayer)
  : Layer2Relayer :=
  {| db := db r; rollupSender := rollupSender r;
     processingCommitment := <[txID := id]> (processingCommitment r);
     logged := logged r |}.

Variable env : Collaborators.

(** The inner loop of [committedPack] over [trace.Transactions], from
    index [j] on, with the running [GasUsed] of the block.  Reading
    [trace.ExecutionResults[j]] past the end panics. *)
Fixpoint packTxs (results : list ExecutionResult) (j : nat)
  (txs : list TransactionData) (gasUsed : Z)
  : outcome (list IZKRollupLayer2Transaction * Z) :=
  match txs with
  | [] => Return ([], gasUsed)
  | tx :: rest =>
      let l2tx :=
        {| Caller := tx_From tx;
           Nonce := tx_Nonce tx;
           Target := match tx_To tx with Some to => to | None => 0 end;
           Gas := tx_Gas tx;
           GasPrice := tx_GasPrice tx;
           Value := tx_Value tx;
           Data := common_Hex2Bytes env (tx_Data tx);
           sig_R := tx_R tx;
           sig_S := tx_S tx;
           sig_V := Uint64 (tx_V tx) |} in
      match results !! j with
      | None => Panics "index out of range"
      | Some result =>
          match packTxs results (S j) rest (uint64 (gasUsed + ExecutionResult_Gas result)) with
          | Panics reason => Panics reason
          | Return (l2txs, total) => Return (l2tx :: l2txs, total)
          end
      end
  end.

(** The outer loop of [committedPack] over the traces, with the
    [parentHash] variable it carries from one block to the next. *)
Fixpoint packBlocks (parentHash : Hash) (traces : list BlockTrace)
  : outcome (list IZKRollupLayer2BlockHeader) :=
  match traces with
  | [] => Return []
  | trace :: rest =>
      match packTxs (trace_ExecutionResults trace) 0 (trace_Transactions trace) 0 with
      | Panics reason => Panics reason
      | Return (l2txs, gasUsed) =>
          let block :=
            {| BlockHash := Header_Hash env (trace_Header trace);
               ParentHash := parentHash;
               BaseFee := Header_BaseFee (trace_Header trace);
               StateRoot := trace_StorageTrace_RootAfter trace;
               BlockHeight := Uint64 (Header_Number (trace_Header trace));
               GasUsed := gasUsed;
               Timestamp := Header_Time (trace_Header trace);
               ExtraData := [];
               Txs := l2txs |} in
          (* for next iteration *)
          match packBlocks (BlockHash block) rest with
          | Panics reason => Panics reason
          | Return blocks => Return (block :: blocks)
          end
      end
  end.

(** The [layer2Batch] that [committedPack] hands to the ABI packer. *)
Definition layer2BatchOf (batch : BlockBatch) (traces : list BlockTrace)
  : outcome IZKRollupLayer2Batch :=
  match packBlocks (common_HexToHash env (BlockBatch_ParentHash batch)) traces with
  | Panics reason => Panics reason
  | Return blocks =>
      Return {| BatchIndex := BlockBatch_Index batch;
                Batch_ParentHash := common_HexToHash env (BlockBatch_ParentHash batch);
                Blocks := blocks |}
  end.

Definition committedPack (id : string) (r : Layer2Relayer)
  : outcome (option BlockBatch * bytes * option error) * Layer2Relayer :=
  let '(batches, err) := db_GetBlockBatches env (db r) id in
  match err, batches with
  | None, batch :: _ =>
      let '(traces, err) := db_GetBlockTraces env (db r) id in
      match err, traces with
      | None, _ :: _ =>
          match layer2BatchOf batch traces with
          | Panics reason => (Panics reason, r)
          | Return layer2Batch =>
              match RollupMetaABI_Pack env "commitBatch" layer2Batch with
              | (_, Some err) =>
                  (Return (None, [], Some err),
                   log (log_Error "Failed to pack commitBatch" id (Some err)) r)
              | (data, None) => (Return (Some batch, data, None), r)
              end
          end
      | _, _ =>
          (* err != nil || len(traces) == 0 *)
          (Return (None, [], err), log (log_Error "Failed to GetBlockTraces" id err) r)
      end
  | _, _ =>
      (* err != nil || len(batches) == 0 *)
      (Return (None, [], err), log (log_Error "Failed to GetBlockBatches" id err) r)
  end.

(** The [for _, id := range ids] loop of [commitInit]. *)
Fixpoint commitInit_loop (ids : list string) (r : Layer2Relayer)
  : outcome unit * Layer2Relayer :=
  match ids with
  | [] => (Return tt, r)
  | id :: rest =>
      match db_GetCommitTxHash env (db r) id with
      | (_, Some err) =>
          commitInit_loop rest
            (log (log_Error "failed to get commit_tx_hash from block_batch" id (Some err)) r)
      | (txStr, None) =>
          match committedPack id r with
          | (Panics reason, r1) => (Panics reason, r1)
          | (Return (_, _, Some err), r1) =>
              commitInit_loop rest
                (log (log_Error "failed to load or send committed tx" id (Some err)) r1)
          | (Return (_, data, None), r1) =>
              let txID := id +:+ "-commit" in
              let '(err, s) :=
                sender_LoadOrSendTx env (rollupSender r1)
                  (common_HexToHash env (NullString_String txStr)) txID
                  (cfg_RollupContractAddress env) 0 data in
              let r2 := set_rollupSender s r1 in
              match err with
              | Some err =>
                  commitInit_loop rest
                    (log (log_Error "failed to load or send tx" id (Some err)) r2)
              | None => commitInit_loop rest (processingCommitment_Store txID id r2)
              end
          end
      end
  end.

Definition commitInit (r : Layer2Relayer) : outcome (option error) * Layer2Relayer :=
  let '(ids, err) := db_GetBatchesByRollupStatus env (db r) RollupCommitting 10 in
  match err, ids with
  | None, _ :: _ =>
      match commitInit_loop ids r with
      | (Panics reason, r1) => (Panics reason, r1)
      | (Return _, r1) => (Return None, r1)
      end
  | _, _ => (Return err, r)
  end.

(** [ProcessPendingBatches]: submit batch data to the layer 1 rollup
    contract.  (The [sync.WaitGroup] it signals on return is not modelled.) *)
Definition ProcessPendingBatches (r : Layer2Relayer) : outcome unit * Layer2Relayer :=
  (* batches are sorted by batch index in increasing order *)
  match db_GetPendingBatches env (db r) 1 with
  | (_, Some err) =>
      (Return tt, log (log_Error "Failed to fetch pending L2 batches" EmptyString (Some err)) r)
  | ([], None) => (Return tt, r)
  | (id :: _, None) =>
      match committedPack id r with
      | (Panics reason, r1) => (Panics reason, r1)
      | (Return (_, _, Some _), r1) => (Return tt, r1)
      | (Return (batch, data, None), r1) =>
          let txID := id +:+ "-commit" in
          let '(hash, err, s) :=
            sender_SendTransaction env (rollupSender r1) txID
              (cfg_RollupContractAddress env) 0 data in
          let r2 := set_rollupSender s r1 in
          match err with
          | Some err =>
              if negb (errors_Is err (sender_ErrNoAvailableAccount env)) then
                match deref batch with
                | Panics reason => (Panics reason, r2)
                | Return _ =>
                    (Return tt,
                     log (log_Error "Failed to send commitBatch tx to layer1 " id (Some err)) r2)
                end
              else (Return tt, r2)
          | None =>
              match deref batch with
              | Panics reason => (Panics reason, r2)
              | Return _ =>
                  let r3 := log (log_Info "commitBatch in layer1" id) r2 in
                  (* record and sync with db, @todo handle db error *)
                  let '(err, d) :=
                    db_UpdateCommitTxHashAndRollupStatus env (db r3) id
                      (Hash_String env hash) RollupCommitting in
                  let r4 := set_db d r3 in
                  let r5 :=
                    match err with
                    | Some err =>
                        log (log_Error "UpdateCommitTxHashAndRollupStatus failed" id (Some err)) r4
                    | None => r4
                    end in
                  (Return tt, processingCommitment_Store txID id r5)
              end
          end
      end
  end.

End Relayer.
Arguments Collaborators : clear implicits.
Arguments Layer2Relayer : clear implicits.

(** What a run of [committedPack] yields besides the batch row it read:
    the calldata and the error, or the panic. *)
Definition calldata {State : Type}
  (run : outcome (option BlockBatch * bytes * option error) * State)
  : outcome (bytes * option error) :=
  match run.1 with
  | Return (_, data, err) => Return (data, err)
  | Panics reason => Panics reason
  end.

End l2.

(** ** In-memory collaborators

    Small executable implementations of the interfaces above, on which the
    two packages can be run on concrete rows.  The store operations follow
    the data model (tables of rows, status columns); the codecs are
    stand-ins that keep the shape of the real encodings. *)

Module mem.
Import provertask.

(** Hexadecimal text of a hash and back (64 digits after [0x]). *)
Definition hex_digit (z : Z) : string :=
  String (Ascii.ascii_of_N (Z.to_N (if z <? 10 then 48 + z else 87 + z))) EmptyString.

Fixpoint hex_fixed (digits : nat) (z : Z) : string :=
  match digits with
  | O => EmptyString
  | Datatypes.S n => hex_fixed n (z / 16) +:+ hex_digit (z mod 16)
  end.

Definition Hash_Hex (h : Z) : string := "0x" +:+ hex_fixed 64 (h mod 2 ^ 256).

Definition hex_value (a : Ascii.ascii) : option Z :=
  let n := Z.of_N (Ascii.N_of_ascii a) in
  if (48 <=? n) && (n <=? 57) then Some (n - 48)
  else if (97 <=? n) && (n <=? 102) then Some (n - 87)
  else if (65 <=? n) && (n <=? 70) then Some (n - 55)
  else None.

Fixpoint hex_parse (s : string) (acc : Z) : Z :=
  match s with
  | EmptyString => acc
  | String a rest =>
      match hex_value a with
      | Some v => hex_parse rest (acc * 16 + v)
      | None => acc
      end
  end.

Definition HexToHash (s : string) : Z :=
  let digits :=
    match s with
    | String "0"%char (String "x"%char rest) => rest
    | String "0"%char (String "X"%char rest) => rest
    | _ => s
    end in
  hex_parse digits 0 mod 2 ^ 256.

(** *** The coordinator's tables *)

Record Store : Type := {
  batch_rows : list Batch;
  chunk_rows : list Chunk;
  prover_task_rows : list ProverTask
}.

(** Ways the store can be made to misbehave in a run. *)
Record Faults : Type := {
  ignores_limit : bool;
  update_fails : bool;
  insert_fails : bool;
  commit_fails : bool
}.

Definition no_faults : Faults :=
  {| ignores_limit := false; update_fails := false;
     insert_fails := false; commit_fails := false |}.

Definition set_status (hash : string) (status : ProvingStatus) (b : Batch) : Batch :=
  if decide (Batch_Hash b = hash)
  then {| Batch_Index := Batch_Index b; Batch_Hash := Batch_Hash b;
          Batch_ProvingStatus := status |}
  else b.

(** Modelled from the spec: [orm.Batch.GetUnassignedBatches] is not among
    the sources; it returns the rows with status Unassigned, oldest first,
    at most [limit] of them. *)
Definition GetUnassignedBatches (f : Faults) (d : Store) (limit : nat)
  : list Batch * option error :=
  let rows := filter (λ b, Batch_ProvingStatus b = ProvingTaskUnassigned) (batch_rows d) in
  (if ignores_limit f then rows else take limit rows, None).

(** Modelled from the spec: [orm.Batch.UpdateProvingStatus] is not among
    the sources; it sets the status column of the batch with that hash. *)
Definition UpdateProvingStatus (f : Faults) (hash : string) (status : ProvingStatus)
  (d : Store) : option error * Store :=
  if update_fails f then (Some (errors_New "connection reset by peer"), d)
  else (None, {| batch_rows := map (set_status hash status) (batch_rows d);
                 chunk_rows := chunk_rows d;
                 prover_task_rows := prover_task_rows d |}).

(** Modelled from the spec: [orm.ProverTask.SetProverTask] is not among the
    sources; it inserts the assignment record. *)
Definition SetProverTask (f : Faults) (t : ProverTask) (d : Store)
  : option error * Store :=
  if insert_fails f then (Some (errors_New "connection reset by peer"), d)
  else (None, {| batch_rows := batch_rows d; chunk_rows := chunk_rows d;
                 prover_task_rows := prover_task_rows d ++ [t] |}).

(** Modelled from the spec: [orm.Chunk.GetChunksByBatchHash] is not among
    the sources; it returns the chunks of the batch in stored order. *)
Definition GetChunksByBatchHash (d : Store) (hash : string)
  : list Chunk * option error :=
  (filter (λ c, Chunk_BatchHash c = hash) (chunk_rows d), None).

(** Modelled from the spec: [BaseCollector.checkAttemptsExceeded] is not
    among the sources; it counts the assignment records of the unit that
    are not a terminal success and, when the configured maximum is
    reached, moves the unit to Failed and answers false. *)
Definition checkAttemptsExceeded (maxAttempts : nat) (hash : string) (taskType : ProofType)
  (d : Store) : bool * Store :=
  let attempts :=
    filter (λ t, TaskID t = hash ∧ TaskType t = taskType
                 ∧ ProvingStatus_ t ≠ ProverProofValid) (prover_task_rows d) in
  if decide (maxAttempts ≤ length attempts)%nat
  then (false, {| batch_rows := map (set_status hash ProvingTaskFailed) (batch_rows d);
                  chunk_rows := chunk_rows d;
                  prover_task_rows := prover_task_rows d |})
  else (true, d).

(** Stand-in for [json.Unmarshal] into a [message.ChunkProof]: the proof
    is kept as its text; an empty blob does not decode. *)
Definition json_Unmarshal (blob : bytes) : string * option error :=
  match blob with
  | [] => (EmptyString, Some (errors_New "unexpected end of JSON input"))
  | _ => (string_of_bytes blob, None)
  end.

Definition dq : string := String (Ascii.ascii_of_nat 34) EmptyString.

Definition json_array (items : list string) : string :=
  match items with
  | [] => "null"
  | _ => "[" +:+ String.concat "," items +:+ "]"
  end.

Definition json_field (name value : string) : string := dq +:+ name +:+ dq +:+ ":" +:+ value.

Definition json_ChunkInfo (i : ChunkInfo) : string :=
  "{" +:+ String.concat ","
    [ json_field "chain_id" (pretty (ChainID i));
      json_field "prev_state_root" (dq +:+ Hash_Hex (PrevStateRoot i) +:+ dq);
      json_field "post_state_root" (dq +:+ Hash_Hex (PostStateRoot i) +:+ dq);
      json_field "withdraw_root" (dq +:+ Hash_Hex (WithdrawRoot i) +:+ dq);
      json_field "data_hash" (dq +:+ Hash_Hex (DataHash i) +:+ dq);
      json_field "is_padding" (if IsPadding i then "true" else "false") ] +:+ "}".

(** Stand-in for [json.Marshal] of a [message.BatchTaskDetail]; a nil
    slice is rendered [null], as Go does. *)
Definition json_Marshal (detail : BatchTaskDetail string) : bytes * option error :=
  (list_byte_of_string
     ("{" +:+ json_field "chunk_infos" (json_array (map json_ChunkInfo (ChunkInfos detail)))
      +:+ "," +:+ json_field "chunk_proofs" (json_array (ChunkProofs detail)) +:+ "}"),
   None).

(** The batch collector over the in-memory store. *)
Definition collector (f : Faults) (maxAttempts : nat) (now : Z)
  : BatchProverTask Store string :=
  {| cfg_L2Config_ChainID := 534353;
     batchOrm_GetUnassignedBatches := GetUnassignedBatches f;
     batchOrm_UpdateProvingStatus := UpdateProvingStatus f;
     proverTaskOrm_SetProverTask := SetProverTask f;
     chunkOrm_GetChunksByBatchHash := GetChunksByBatchHash;
     provertask.checkAttemptsExceeded := checkAttemptsExceeded maxAttempts;
     db_Begin := λ _, None;
     db_Commit := λ _, if commit_fails f then Some (errors_New "commit failed") else None;
     coordinatorType_PublicKey := "public_key";
     coordinatorType_ProverName := "prover_name";
     utils_NowUTC := now;
     provertask.json_Unmarshal := json_Unmarshal;
     provertask.json_Marshal := json_Marshal;
     provertask.common_HexToHash := HexToHash |}.

Definition connect (d : Store) : Conn Store :=
  {| committed := d; pending := None; seen := [] |}.

(** A request context carrying the prover's identity. *)
Definition request (publicKey proverName : string) : gin_Context :=
  <["public_key" := any_string publicKey]> (<["prover_name" := any_string proverName]> ∅).

End mem.

Module meml2.
Import l2.

(** *** The relayer's tables, in index order and block order *)

Record Store : Type := {
  block_batch_rows : list BlockBatch;
  block_trace_rows : list (string * BlockTrace)
}.

(** A transaction the sender knows under a logical id. *)
Record KnownTx : Type := {
  known_ID : string;
  known_hash : Hash;
  known_target : Address;
  known_value : Z;
  known_data : bytes
}.

(** The transaction sender: whether a relay account is free, and the
    transactions it has broadcast. *)
Record Sender : Type := {
  account_free : bool;
  known_txs : list KnownTx
}.

Definition ErrNoAvailableAccount : error :=
  errors_New "sender has no available account to send transaction".

Definition knows (s : Sender) (txID : string) : bool :=
  bool_decide (txID ∈ map known_ID (known_txs s)).

(** Stand-in for the hash of a signed transaction. *)
Definition tx_hash (data : bytes) : Hash :=
  fold_left (λ acc b, (acc * 257 + Z.of_N (Byte.to_N b) + 1) mod 2 ^ 256) data 7.

(** Modelled from the spec: the sender is not among the sources; it sends
    a new transaction under a logical id, reports a busy pool with its
    distinguished error and refuses an id it already knows. *)
Definition SendTransaction (s : Sender) (txID : string) (target : Address) (value : Z)
  (data : bytes) : (Hash * option error) * Sender :=
  if negb (account_free s) then ((0, Some ErrNoAvailableAccount), s)
  else if knows s txID then ((0, Some (fmt_Errorf "has the repeat tx ID, ID: %s" [txID])), s)
  else
    let hash := tx_hash data in
    ((hash, None),
     {| account_free := account_free s;
        known_txs := known_txs s ++
          [{| known_ID := txID; known_hash := hash; known_target := target;
              known_value := value; known_data := data |}] |}).

(** Modelled from the spec: the sender's resume operation does nothing
    for an id it already knows and broadcasts the transaction otherwise. *)
Definition LoadOrSendTx (s : Sender) (hash : Hash) (txID : string) (target : Address)
  (value : Z) (data : bytes) : option error * Sender :=
  if knows s txID then (None, s)
  else
    (None,
     {| account_free := account_free s;
        known_txs := known_txs s ++
          [{| known_ID := txID; known_hash := hash; known_target := target;
              known_value := value; known_data := data |}] |}).

Definition set_commit (id hash : string) (status : RollupStatus) (b : BlockBatch)
  : BlockBatch :=
  if decide (BlockBatch_ID b = id)
  then {| BlockBatch_ID := BlockBatch_ID b; BlockBatch_Index := BlockBatch_Index b;
          BlockBatch_ParentHash := BlockBatch_ParentHash b;
          BlockBatch_RollupStatus := status;
          BlockBatch_CommitTxHash :=
            {| NullString_String := hash; NullString_Valid := true |} |}
  else b.

Fixpoint insert_by_number (t : BlockTrace) (sorted : list BlockTrace) : list BlockTrace :=
  match sorted with
  | [] => [t]
  | u :: rest =>
      if Header_Number (trace_Header t) <? Header_Number (trace_Header u)
      then t :: sorted
      else u :: insert_by_number t rest
  end.

(** [ORDER BY number ASC]. *)
Definition order_by_number (traces : list BlockTrace) : list BlockTrace :=
  fold_right insert_by_number [] traces.

Definition ids_with_status (status : RollupStatus) (d : Store) : list string :=
  map BlockBatch_ID
    (filter (λ b, BlockBatch_RollupStatus b = status) (block_batch_rows d)).

Definition GetCommitTxHash (d : Store) (id : string) : NullString * option error :=
  match filter (λ b, BlockBatch_ID b = id) (block_batch_rows d) with
  | b :: _ => (BlockBatch_CommitTxHash b, None)
  | [] => ({| NullString_String := EmptyString; NullString_Valid := false |},
           Some (errors_New "sql: no rows in result set"))
  end.

Definition GetBlockTraces (d : Store) (id : string) : list BlockTrace * option error :=
  (order_by_number
     (map snd (filter (λ row : string * BlockTrace, fst row = id) (block_trace_rows d))),
   None).

Definition UpdateCommitTxHashAndRollupStatus (fails : bool) (d : Store) (id hash : string)
  (status : RollupStatus) : option error * Store :=
  if fails then (Some (errors_New "connection reset by peer"), d)
  else (None, {| block_batch_rows := map (set_commit id hash status) (block_batch_rows d);
                 block_trace_rows := block_trace_rows d |}).

(** Stand-in for [common.Hex2Bytes]: two digits a byte. *)
Fixpoint Hex2Bytes (s : string) : bytes :=
  match s with
  | String a (String b rest) =>
      match mem.hex_value a, mem.hex_value b with
      | Some x, Some y =>
          match Byte.of_N (Z.to_N (16 * x + y)) with
          | Some byte => byte :: Hex2Bytes rest
          | None => []
          end
      | _, _ => []
      end
  | _ => []
  end.

(** Stand-in for [Header.Hash()]. *)
Definition Header_Hash (h : Header) : Hash :=
  (Header_ParentHash h * 1000003 + Header_Number h * 10007 + Header_Time h * 101
   + match Header_BaseFee h with Some fee => fee | None => 0 end + 17) mod 2 ^ 256.

Definition text_tx (t : IZKRollupLayer2Transaction) : string :=
  "(" +:+ String.concat ","
    [pretty (Caller t); pretty (Nonce t); pretty (Target t); pretty (Gas t);
     pretty (GasPrice t); pretty (Value t); string_of_bytes (Data t);
     pretty (sig_R t); pretty (sig_S t); pretty (sig_V t)] +:+ ")".

Definition text_block (b : IZKRollupLayer2BlockHeader) : string :=
  "(" +:+ String.concat ","
    [pretty (BlockHash b); pretty (ParentHash b);
     match BaseFee b with Some fee => pretty fee | None => "nil" end;
     pretty (StateRoot b); pretty (BlockHeight b); pretty (GasUsed b);
     pretty (Timestamp b); string_of_bytes (ExtraData b);
     "[" +:+ String.concat "," (map text_tx (Txs b)) +:+ "]"] +:+ ")".

(** Stand-in for the ABI packer: the call rendered as text. *)
Definition Pack (method : string) (batch : IZKRollupLayer2Batch) : bytes * option error :=
  (list_byte_of_string
     (method +:+ "(" +:+ pretty (BatchIndex batch) +:+ ","
      +:+ pretty (Batch_ParentHash batch) +:+ ",["
      +:+ String.concat "," (map text_block (Blocks batch)) +:+ "])"),
   None).

(** The relayer's collaborators over the in-memory store and sender;
    [update_fails] makes the status update report a store error. *)
Definition collaborators (update_fails : bool) : Collaborators Store Sender :=
  {| db_GetBatchesByRollupStatus :=
       λ d status limit, (take limit (ids_with_status status d), None);
     db_GetCommitTxHash := GetCommitTxHash;
     db_GetBlockBatches :=
       λ d id, (filter (λ b, BlockBatch_ID b = id) (block_batch_rows d), None);
     db_GetBlockTraces := GetBlockTraces;
     db_GetPendingBatches := λ d limit, (take limit (ids_with_status RollupPending d), None);
     db_UpdateCommitTxHashAndRollupStatus := UpdateCommitTxHashAndRollupStatus update_fails;
     sender_SendTransaction := SendTransaction;
     sender_LoadOrSendTx := LoadOrSendTx;
     sender_ErrNoAvailableAccount := ErrNoAvailableAccount;
     RollupMetaABI_Pack := Pack;
     l2.common_HexToHash := mem.HexToHash;
     common_Hex2Bytes := Hex2Bytes;
     l2.Header_Hash := Header_Hash;
     Hash_String := mem.Hash_Hex;
     cfg_RollupContractAddress := 3735928559 |}.

(** A relayer that has just started: nothing in flight, nothing logged. *)
Definition start (d : Store) (s : Sender) : Layer2Relayer Store Sender :=
  {| db := d; rollupSender := s; processingCommitment := ∅; logged := [] |}.

End meml2.

(** ** Rows used in the worked examples *)

Module fixture.
Import provertask l2.

Definition chunk (hash parentRoot stateRoot withdrawRoot proof batch : string) : Chunk :=
  {| Chunk_Hash := hash; Chunk_ParentChunkStateRoot := parentRoot;
     Chunk_StateRoot := stateRoot; Chunk_WithdrawRoot := withdrawRoot;
     Chunk_Proof := list_byte_of_string proof; Chunk_BatchHash := batch |}.

Definition unassigned (index : Z) (hash : string) : Batch :=
  {| Batch_Index := index; Batch_Hash := hash;
     Batch_ProvingStatus := ProvingTaskUnassigned |}.

(** Batch [0xb1] has two proved chunks; the only chunk of [0xb2] has an
    empty proof blob; [0xb3] has no chunk at all. *)
Definition chunks : list Chunk :=
  [ chunk "0xc1" "0x01" "0x02" "0x03" "{P1}" "0xb1";
    chunk "0xc2" "0x02" "0x04" "0x05" "{P2}" "0xb1";
    chunk "0xc3" "0x04" "0x06" "0x07" EmptyString "0xb2" ].

Definition attempt (hash prover : string) (at_ : Z) : ProverTask :=
  {| TaskID := hash; ProverPublicKey := prover; TaskType := ProofTypeBatch;
     ProverName := prover; ProvingStatus_ := ProverProofInvalid;
     FailureType := ProverTaskFailureTypeTimeout; AssignedAt := at_ |}.

(** Two batches wait for a prover. *)
Definition waiting : mem.Store :=
  {| mem.batch_rows := [unassigned 1 "0xb1"; unassigned 2 "0xb2"];
     mem.chunk_rows := chunks;
     mem.prover_task_rows := [] |}.

(** Batch [0xb1] has already been tried three times. *)
Definition exhausted : mem.Store :=
  {| mem.batch_rows := [unassigned 1 "0xb1"];
     mem.chunk_rows := chunks;
     mem.prover_task_rows :=
       [attempt "0xb1" "p1" 10; attempt "0xb1" "p2" 20; attempt "0xb1" "p3" 30] |}.

(** Only batch [0xb2], whose chunk cannot be decoded, waits. *)
Definition corrupt : mem.Store :=
  {| mem.batch_rows := [unassigned 2 "0xb2"];
     mem.chunk_rows := chunks;
     mem.prover_task_rows := [] |}.

Definition transfer (nonce : Z) (to : option Address) : TransactionData :=
  {| tx_From := 11; tx_Nonce := nonce; tx_Gas := 100000; tx_GasPrice := 1;
     tx_Value := 0; tx_Data := "a1b2"; tx_R := 1; tx_S := 2; tx_V := 27;
     tx_To := to |}.

Definition used (gas : Z) : ExecutionResult := {| ExecutionResult_Gas := gas |}.

(** Block 1 carries three transactions, block 2 and block 3 none. *)
Definition block1 : BlockTrace :=
  {| trace_Header := {| Header_ParentHash := 5; Header_Number := 1;
                        Header_Time := 100; Header_BaseFee := Some 7 |};
     trace_StorageTrace_RootAfter := 21;
     trace_Transactions := [transfer 0 (Some 9); transfer 1 None; transfer 2 (Some 9)];
     trace_ExecutionResults := [used 21000; used 50000; used 100000] |}.

Definition block2 : BlockTrace :=
  {| trace_Header := {| Header_ParentHash := 6; Header_Number := 2;
                        Header_Time := 103; Header_BaseFee := None |};
     trace_StorageTrace_RootAfter := 22;
     trace_Transactions := [];
     trace_ExecutionResults := [] |}.

Definition block3 : BlockTrace :=
  {| trace_Header := {| Header_ParentHash := 8; Header_Number := 3;
                        Header_Time := 106; Header_BaseFee := None |};
     trace_StorageTrace_RootAfter := 23;
     trace_Transactions := [];
     trace_ExecutionResults := [] |}.

Definition pending_batch (id : string) (index : Z) : BlockBatch :=
  {| BlockBatch_ID := id; BlockBatch_Index := index; BlockBatch_ParentHash := "0xaa";
     BlockBatch_RollupStatus := RollupPending;
     BlockBatch_CommitTxHash :=
       {| NullString_String := EmptyString; NullString_Valid := false |} |}.

(** Batch [b1] owns blocks 1 to 3 (stored out of order); batch [b2] owns
    no block. *)
Definition proved : meml2.Store :=
  {| meml2.block_batch_rows := [pending_batch "b1" 1; pending_batch "b2" 2];
     meml2.block_trace_rows := [("b1", block2); ("b1", block3); ("b1", block1)] |}.

(** The same store when only the traceless batch [b2] is pending. *)
Definition traceless : meml2.Store :=
  {| meml2.block_batch_rows := [pending_batch "b2" 2];
     meml2.block_trace_rows := [("b1", block1)] |}.

Definition idle : meml2.Sender := {| meml2.account_free := true; meml2.known_txs := [] |}.




End fixture.

(** ** Further notions and rows used in the properties *)

Module cases.
Import provertask l2.

(** The gas of a list of execution results, as a number. *)
Definition gas_total (results : list ExecutionResult) : Z :=
  foldr (λ result total, ExecutionResult_Gas result + total) 0 results.

(** A block whose trace lacks the execution result of its second
    transaction. *)
Definition short_block : BlockTrace :=
  {| trace_Header := {| Header_ParentHash := 9; Header_Number := 4;
                        Header_Time := 109; Header_BaseFee := None |};
     trace_StorageTrace_RootAfter := 24;
     trace_Transactions := [fixture.transfer 3 (Some 9); fixture.transfer 4 None];
     trace_ExecutionResults := [fixture.used 21000] |}.

(** Batch [b3] owns block 3 and the short block; batch [b4] is already
    Committing and owns block 1. *)
Definition malformed : meml2.Store :=
  {| meml2.block_batch_rows :=
       [ fixture.pending_batch "b3" 3;
         {| BlockBatch_ID := "b4"; BlockBatch_Index := 4; BlockBatch_ParentHash := "0xbb";
            BlockBatch_RollupStatus := RollupCommitting;
            BlockBatch_CommitTxHash :=
              {| NullString_String := "0x2a"; NullString_Valid := true |} |} ];
     meml2.block_trace_rows :=
       [("b3", fixture.block3); ("b3", short_block); ("b4", fixture.block1)] |}.

(** A sender whose relay accounts are all busy. *)
Definition busy : meml2.Sender := {| meml2.account_free := false; meml2.known_txs := [] |}.

(** Batch [0xb4] has a proved chunk followed by two chunks with empty
    proof blobs. *)
Definition mixed : mem.Store :=
  {| mem.batch_rows := [fixture.unassigned 4 "0xb4"];
     mem.chunk_rows :=
       [ fixture.chunk "0xd1" "0x01" "0x02" "0x03" "{P1}" "0xb4";
         fixture.chunk "0xd2" "0x02" "0x04" "0x05" EmptyString "0xb4";
         fixture.chunk "0xd3" "0x04" "0x06" "0x07" EmptyString "0xb4" ];
     mem.prover_task_rows := [] |}.

(** A store with nothing to prove. *)
Definition nothing : mem.Store :=
  {| mem.batch_rows := []; mem.chunk_rows := []; mem.prover_task_rows := [] |}.

(** A request whose public key is not a string, and one without a prover
    name. *)
Definition odd_request : gin_Context :=
  <["public_key" := any_int 7]> (<["prover_name" := any_string "alice"]> ∅).

Definition nameless_request : gin_Context :=
  <["public_key" := any_string "0xkey"]> ∅.

End cases.

(** * Properties of the batch collector *)

Import provertask.

(** C10. When the store answers the request for one unassigned batch with
    more than one row, [Collect] returns the "len not 1" error and leaves
    the connection exactly as it found it: no status is changed, no
    assignment record is inserted, nothing new is observable. *)
Theorem Collect_refuses_several_batches {DB ChunkProof : Type}
  (bp : BatchProverTask DB ChunkProof) (ctx : gin_Context) (c : Conn DB)
  (batchTasks : list Batch) :
  batchOrm_GetUnassignedBatches bp (committed c) 1 = (batchTasks, None) →
  (1 < length batchTasks)%nat →
  Collect bp ctx c =
    (Return (None, Some (fmt_Errorf
                           "get unassigned batch proving task len not 1, batch tasks:%v"
                           (map Batch_Hash batchTasks))), c).
Proof.
  intros Hget Hlen. unfold Collect. rewrite Hget.
  destruct batchTasks as [|b [|b' rest]]; simpl in Hlen; try lia.
  reflexivity.
Qed.

Lemma Collect_refuses_several_batches_witness :
  let bp := mem.collector
              {| mem.ignores_limit := true; mem.update_fails := false;
                 mem.insert_fails := false; mem.commit_fails := false |} 3 1000 in
  Collect bp (mem.request "0xkey" "alice") (mem.connect fixture.waiting) =
    (Return (None, Some (fmt_Errorf
                           "get unassigned batch proving task len not 1, batch tasks:%v"
                           ["0xb1"; "0xb2"])), mem.connect fixture.waiting).
Proof.
  intros bp.
  apply (Collect_refuses_several_batches bp (mem.request "0xkey" "alice")
           (mem.connect fixture.waiting) (mem.batch_rows fixture.waiting)).
  - reflexivity.
  - simpl. lia.
Defined.

(** C6. When the one unassigned batch has exhausted its attempts (the
    guard answers false), [Collect] returns the "attempts have reach the
    maximum" error at once.  The store it leaves is the one the guard
    left, and the guard's is the only new observable state: the status
    update and the insertion of the assignment record are not run. *)
Theorem Collect_attempts_exceeded {DB ChunkProof : Type}
  (bp : BatchProverTask DB ChunkProof) (ctx : gin_Context) (c : Conn DB)
  (batchTask : Batch) (d : DB) :
  batchOrm_GetUnassignedBatches bp (committed c) 1 = ([batchTask], None) →
  checkAttemptsExceeded bp (Batch_Hash batchTask) ProofTypeBatch (committed c) = (false, d) →
  Collect bp ctx c =
    (Return (None, Some (fmt_Errorf
                           "the batch task id:%s check attempts have reach the maximum"
                           [Batch_Hash batchTask])),
     {| committed := d; pending := pending c; seen := d :: seen c |}).
Proof.
  intros Hget Hguard. unfold Collect. rewrite Hget. simpl. rewrite Hguard.
  reflexivity.
Qed.

Lemma Collect_attempts_exceeded_witness :
  ∃ d : mem.Store,
    Collect (mem.collector mem.no_faults 3 1000) (mem.request "0xkey" "alice")
      (mem.connect fixture.exhausted) =
      (Return (None, Some (fmt_Errorf
                             "the batch task id:%s check attempts have reach the maximum"
                             ["0xb1"])),
       {| committed := d; pending := None; seen := [d] |})
    ∧ mem.prover_task_rows d = mem.prover_task_rows fixture.exhausted
    ∧ map Batch_ProvingStatus (mem.batch_rows d) = [ProvingTaskFailed].
Proof.
  eexists. split; [|split].
  - apply (Collect_attempts_exceeded (mem.collector mem.no_faults 3 1000)
             (mem.request "0xkey" "alice") (mem.connect fixture.exhausted)
             (fixture.unassigned 1 "0xb1")); reflexivity.
  - reflexivity.
  - reflexivity.
Defined.

(** The transaction of [Collect] either commits both writes, in one step
    of the committed store, or leaves the committed store as it was. *)
Lemma assignment_transaction {DB ChunkProof : Type}
  (bp : BatchProverTask DB ChunkProof) (batchTask : Batch) (publicKey proverName : any)
  (c : Conn DB) :
  let r := (Transaction bp (assignment bp batchTask publicKey proverName) c).1 in
  let c' := (Transaction bp (assignment bp batchTask publicKey proverName) c).2 in
  (r ≠ Return None ∧ committed c' = committed c ∧ seen c' = seen c)
  ∨ (∃ (publicKey_string proverName_string : string) (d1 d2 : DB),
        r = Return None
        ∧ publicKey = any_string publicKey_string
        ∧ proverName = any_string proverName_string
        ∧ db_Begin bp (committed c) = None
        ∧ batchOrm_UpdateProvingStatus bp (Batch_Hash batchTask) ProvingTaskAssigned
            (committed c) = (None, d1)
        ∧ proverTaskOrm_SetProverTask bp
            {| TaskID := Batch_Hash batchTask;
               ProverPublicKey := publicKey_string;
               TaskType := ProofTypeBatch;
               ProverName := proverName_string;
               ProvingStatus_ := ProverAssigned;
               FailureType := ProverTaskFailureTypeUndefined;
               AssignedAt := utils_NowUTC bp |} d1 = (None, d2)
        ∧ db_Commit bp d2 = None
        ∧ c' = {| committed := d2; pending := None; seen := d2 :: seen c |}).
Proof.
  unfold Transaction, assignment, exec; simpl.
  destruct (db_Begin bp (committed c)) as [e|] eqn:Hbegin; simpl.
  { left. repeat split; congruence. }
  destruct (batchOrm_UpdateProvingStatus bp (Batch_Hash batchTask) ProvingTaskAssigned
              (committed c)) as [[e|] d1] eqn:Hupdate; simpl.
  { left. repeat split; congruence. }
  destruct publicKey as [pk|n]; simpl; [|left; repeat split; congruence].
  destruct proverName as [pn|n]; simpl; [|left; repeat split; congruence].
  match goal with
  | |- context [proverTaskOrm_SetProverTask bp ?t d1] =>
      destruct (proverTaskOrm_SetProverTask bp t d1) as [[e|] d2] eqn:Hinsert; simpl
  end.
  { left. repeat split; congruence. }
  destruct (db_Commit bp d2) as [e|] eqn:Hcommit; simpl.
  { left. repeat split; congruence. }
  right. exists pk, pn, d1, d2. repeat split; assumption.
Qed.

(** C1. In every run of [Collect] the status update and the insertion of
    the assignment record (with [AssignedAt] the current UTC time) go
    through the [tx] handle of one transaction.  So the committed store
    ends in one of three ways: untouched; holding what the attempt guard
    left, with neither write applied; or holding both writes, applied in
    that order to what the guard left.  The committed states that were
    observable during the run are listed in [seen]: the store with the
    status updated and no record inserted is never among them. *)
Theorem Collect_assignment_atomic {DB ChunkProof : Type}
  (bp : BatchProverTask DB ChunkProof) (ctx : gin_Context) (c : Conn DB) :
  let c' := (Collect bp ctx c).2 in
  (committed c' = committed c ∧ seen c' = seen c)
  ∨ (∃ (batchTask : Batch) (eligible : bool) (d : DB),
        batchOrm_GetUnassignedBatches bp (committed c) 1 = ([batchTask], None)
        ∧ checkAttemptsExceeded bp (Batch_Hash batchTask) ProofTypeBatch (committed c)
          = (eligible, d)
        ∧ ((committed c' = d ∧ seen c' = d :: seen c)
           ∨ (∃ (publicKey proverName : string) (d1 d2 : DB),
                 ctx_Get ctx (coordinatorType_PublicKey bp) = Some (any_string publicKey)
                 ∧ ctx_Get ctx (coordinatorType_ProverName bp) = Some (any_string proverName)
                 ∧ batchOrm_UpdateProvingStatus bp (Batch_Hash batchTask) ProvingTaskAssigned d
                   = (None, d1)
                 ∧ proverTaskOrm_SetProverTask bp
                     {| TaskID := Batch_Hash batchTask;
                        ProverPublicKey := publicKey;
                        TaskType := ProofTypeBatch;
                        ProverName := proverName;
                        ProvingStatus_ := ProverAssigned;
                        FailureType := ProverTaskFailureTypeUndefined;
                        AssignedAt := utils_NowUTC bp |} d1 = (None, d2)
                 ∧ committed c' = d2
                 ∧ seen c' = d2 :: d :: seen c))).
Proof.
  unfold Collect.
  destruct (batchOrm_GetUnassignedBatches bp (committed c) 1) as [batchTasks [e|]] eqn:Hget;
    simpl; [left; split; reflexivity|].
  destruct batchTasks as [|batchTask [|b' rest]]; simpl; try (left; split; reflexivity).
  destruct (checkAttemptsExceeded bp (Batch_Hash batchTask) ProofTypeBatch (committed c))
    as [eligible d] eqn:Hguard.
  right. exists batchTask, eligible, d. split; [reflexivity|]. split; [exact Hguard|].
  destruct eligible; simpl; [|left; split; reflexivity].
  destruct (ctx_Get ctx (coordinatorType_PublicKey bp)) as [publicKey|] eqn:Hpk;
    simpl; [|left; split; reflexivity].
  destruct (ctx_Get ctx (coordinatorType_ProverName bp)) as [proverName|] eqn:Hpn;
    simpl; [|left; split; reflexivity].
  pose proof (assignment_transaction bp batchTask publicKey proverName
                {| committed := d; pending := pending c; seen := d :: seen c |}) as Htx.
  simpl in Htx.
  destruct (Transaction bp (assignment bp batchTask publicKey proverName)
              {| committed := d; pending := pending c; seen := d :: seen c |})
    as [r c2] eqn:Hrun.
  simpl in Htx.
  destruct Htx as [(Hr & Hc & Hs)|(pk & pn & d1 & d2 & Hr & -> & -> & _ & Hu & Hi & _ & Hc2)].
  - left. destruct r as [[e|]|reason]; simpl; try (split; assumption). congruence.
  - right. exists pk, pn, d1, d2. subst r c2.
    split; [reflexivity|]. split; [reflexivity|].
    split; [exact Hu|]. split; [exact Hi|].
    simpl. destruct (formatProverTask bp d2 (Batch_Hash batchTask)) as [m [e|]];
      split; reflexivity.
Qed.

(** On the in-memory store: a run that commits leaves batch [0xb1]
    Assigned with its record; a run whose insertion fails leaves the
    store as it was, the status update included. *)
Example Collect_commits_both :
  let c' := (Collect (mem.collector mem.no_faults 3 1000) (mem.request "0xkey" "alice")
               (mem.connect fixture.waiting)).2 in
  map Batch_ProvingStatus (mem.batch_rows (committed c'))
    = [ProvingTaskAssigned; ProvingTaskUnassigned]
  ∧ map (λ t, (TaskID t, ProverName t, AssignedAt t)) (mem.prover_task_rows (committed c'))
    = [("0xb1", "alice", 1000)]
  ∧ seen c' = [committed c'; fixture.waiting].
Proof. vm_compute. repeat split; reflexivity. Qed.

Example Collect_rolls_back_both :
  let run := Collect
               (mem.collector
                  {| mem.ignores_limit := false; mem.update_fails := false;
                     mem.insert_fails := true; mem.commit_fails := false |} 3 1000)
               (mem.request "0xkey" "alice") (mem.connect fixture.waiting) in
  run.1 = Return (None, Some (fmt_Errorf_w "db set session info fail, session id:%s, error:%w"
                                ["0xb1"] (errors_New "connection reset by peer")))
  ∧ committed run.2 = fixture.waiting
  ∧ seen run.2 = [fixture.waiting].
Proof. vm_compute. repeat split; reflexivity. Qed.

(** C9. When the transaction of [Collect] has committed and
    [formatProverTask] then fails, [Collect] returns the "format prover
    failure" error and the committed store is still the one the
    transaction produced: status update and assignment record in place. *)
Theorem Collect_format_failure_keeps_assignment {DB ChunkProof : Type}
  (bp : BatchProverTask DB ChunkProof) (ctx : gin_Context) (c : Conn DB)
  (batchTask : Batch) (publicKey proverName : string) (d d1 d2 : DB) (err : error) :
  batchOrm_GetUnassignedBatches bp (committed c) 1 = ([batchTask], None) →
  checkAttemptsExceeded bp (Batch_Hash batchTask) ProofTypeBatch (committed c) = (true, d) →
  ctx_Get ctx (coordinatorType_PublicKey bp) = Some (any_string publicKey) →
  ctx_Get ctx (coordinatorType_ProverName bp) = Some (any_string proverName) →
  db_Begin bp d = None →
  batchOrm_UpdateProvingStatus bp (Batch_Hash batchTask) ProvingTaskAssigned d = (None, d1) →
  proverTaskOrm_SetProverTask bp
    {| TaskID := Batch_Hash batchTask;
       ProverPublicKey := publicKey;
       TaskType := ProofTypeBatch;
       ProverName := proverName;
       ProvingStatus_ := ProverAssigned;
       FailureType := ProverTaskFailureTypeUndefined;
       AssignedAt := utils_NowUTC bp |} d1 = (None, d2) →
  db_Commit bp d2 = None →
  (formatProverTask bp d2 (Batch_Hash batchTask)).2 = Some err →
  Collect bp ctx c =
    (Return (None, Some (fmt_Errorf_w "format prover failure, id:%s error:%w"
                           [Batch_Hash batchTask] err)),
     {| committed := d2; pending := None; seen := d2 :: d :: seen c |}).
Proof.
  intros Hget Hguard Hpk Hpn Hbegin Hupdate Hinsert Hcommit Hformat.
  unfold Collect. rewrite Hget. simpl. rewrite Hguard. simpl. rewrite Hpk, Hpn.
  unfold Transaction, assignment, exec. simpl.
  rewrite Hbegin, Hupdate. simpl. rewrite Hinsert. simpl. rewrite Hcommit. simpl.
  destruct (formatProverTask bp d2 (Batch_Hash batchTask)) as [taskMsg [e|]];
    simpl in Hformat; [|discriminate].
  inversion Hformat; subst. reflexivity.
Qed.

Lemma Collect_format_failure_keeps_assignment_witness :
  ∃ (d2 : mem.Store) (err : error),
    Collect (mem.collector mem.no_faults 3 1000) (mem.request "0xkey" "alice")
      (mem.connect fixture.corrupt) =
      (Return (None, Some (fmt_Errorf_w "format prover failure, id:%s error:%w" ["0xb2"] err)),
       {| committed := d2; pending := None; seen := [d2; fixture.corrupt] |})
    ∧ map Batch_ProvingStatus (mem.batch_rows d2) = [ProvingTaskAssigned]
    ∧ map TaskID (mem.prover_task_rows d2) = ["0xb2"].
Proof.
  eexists. eexists. split; [|split].
  - eapply (Collect_format_failure_keeps_assignment (mem.collector mem.no_faults 3 1000)
             (mem.request "0xkey" "alice") (mem.connect fixture.corrupt)
             (fixture.unassigned 2 "0xb2") "0xkey" "alice" fixture.corrupt);
      reflexivity.
  - reflexivity.
  - reflexivity.
Defined.

(** The loop of [formatProverTask] appends, chunk by chunk, the decoded
    proof to one slice and the chunk's info to the other. *)
Lemma formatChunks_decoded {DB ChunkProof : Type} (bp : BatchProverTask DB ChunkProof)
  (taskID : string) (chunks : list Chunk) :
  Forall (λ chunk, (json_Unmarshal bp (Chunk_Proof chunk)).2 = None) chunks →
  ∀ (chunkProofs : list ChunkProof) (chunkInfos : list ChunkInfo),
    formatChunks bp taskID chunks chunkProofs chunkInfos =
      inl (chunkProofs ++ map (λ chunk, (json_Unmarshal bp (Chunk_Proof chunk)).1) chunks,
           chunkInfos ++
             map (λ chunk,
                    {| ChainID := cfg_L2Config_ChainID bp;
                       PrevStateRoot := common_HexToHash bp (Chunk_ParentChunkStateRoot chunk);
                       PostStateRoot := common_HexToHash bp (Chunk_StateRoot chunk);
                       WithdrawRoot := common_HexToHash bp (Chunk_WithdrawRoot chunk);
                       DataHash := common_HexToHash bp (Chunk_Hash chunk);
                       IsPadding := false |}) chunks).
Proof.
  induction 1 as [|chunk rest Hchunk _ IH]; intros chunkProofs chunkInfos; simpl.
  - rewrite !app_nil_r. reflexivity.
  - destruct (json_Unmarshal bp (Chunk_Proof chunk)) as [proof [e|]]; simpl in *;
      [discriminate|].
    rewrite IH, <- !app_assoc. reflexivity.
Qed.

(** C5. When the chunks of the batch are read and every proof blob
    decodes, [formatProverTask] marshals a task detail whose [ChunkInfos]
    and [ChunkProofs] have one entry per chunk, in the order of the
    chunks: entry [i] of [ChunkProofs] is the decoded proof of chunk [i],
    and entry [i] of [ChunkInfos] carries that chunk's previous and post
    state roots, withdraw root and data hash, with [IsPadding] false.  The
    payload wraps the marshalled bytes with the task id and the batch
    proof type. *)
Theorem formatProverTask_payload {DB ChunkProof : Type}
  (bp : BatchProverTask DB ChunkProof) (d : DB) (taskID : string) (chunks : list Chunk) :
  chunkOrm_GetChunksByBatchHash bp d taskID = (chunks, None) →
  Forall (λ chunk, (json_Unmarshal bp (Chunk_Proof chunk)).2 = None) chunks →
  ∃ taskDetail : BatchTaskDetail ChunkProof,
    formatProverTask bp d taskID =
      match json_Marshal bp taskDetail with
      | (_, Some err) =>
          (None, Some (fmt_Errorf_w "failed to marshal chunk proofs, taskID:%s err:%w"
                         [taskID] err))
      | (chunkProofsBytes, None) =>
          (Some {| Schema_TaskID := taskID;
                   Schema_ProofType := ProofTypeBatch;
                   Schema_ProofData := string_of_bytes chunkProofsBytes |}, None)
      end
    ∧ length (ChunkInfos taskDetail) = length chunks
    ∧ length (ChunkProofs taskDetail) = length chunks
    ∧ ∀ (i : nat) (chunk : Chunk),
        chunks !! i = Some chunk →
        ChunkProofs taskDetail !! i = Some (json_Unmarshal bp (Chunk_Proof chunk)).1
        ∧ ∃ info : ChunkInfo,
            ChunkInfos taskDetail !! i = Some info
            ∧ PrevStateRoot info = common_HexToHash bp (Chunk_ParentChunkStateRoot chunk)
            ∧ PostStateRoot info = common_HexToHash bp (Chunk_StateRoot chunk)
            ∧ WithdrawRoot info = common_HexToHash bp (Chunk_WithdrawRoot chunk)
            ∧ DataHash info = common_HexToHash bp (Chunk_Hash chunk)
            ∧ IsPadding info = false.
Proof.
  intros Hget Hdecode.
  eexists {| ChunkInfos := _; ChunkProofs := _ |}.
  split.
  { unfold formatProverTask. rewrite Hget.
    rewrite (formatChunks_decoded bp taskID chunks Hdecode [] []). simpl.
    reflexivity. }
  simpl. rewrite !length_map. split; [reflexivity|]. split; [reflexivity|].
  intros i chunk Hi. rewrite !list_lookup_fmap, Hi. simpl.
  split; [reflexivity|]. eexists. split; [reflexivity|]. simpl.
  repeat split; reflexivity.
Qed.

Lemma formatProverTask_payload_witness :
  ∃ taskDetail : BatchTaskDetail string,
    formatProverTask (mem.collector mem.no_faults 3 1000) fixture.waiting "0xb1" =
      (Some {| Schema_TaskID := "0xb1";
               Schema_ProofType := ProofTypeBatch;
               Schema_ProofData := string_of_bytes (mem.json_Marshal taskDetail).1 |}, None)
    ∧ length (ChunkInfos taskDetail) = 2%nat
    ∧ length (ChunkProofs taskDetail) = 2%nat
    ∧ ∀ (i : nat) (chunk : Chunk),
        take 2 fixture.chunks !! i = Some chunk →
        ChunkProofs taskDetail !! i = Some (string_of_bytes (Chunk_Proof chunk))
        ∧ ∃ info : ChunkInfo,
            ChunkInfos taskDetail !! i = Some info
            ∧ PrevStateRoot info = mem.HexToHash (Chunk_ParentChunkStateRoot chunk)
            ∧ PostStateRoot info = mem.HexToHash (Chunk_StateRoot chunk)
            ∧ WithdrawRoot info = mem.HexToHash (Chunk_WithdrawRoot chunk)
            ∧ DataHash info = mem.HexToHash (Chunk_Hash chunk)
            ∧ IsPadding info = false.
Proof.
  destruct (formatProverTask_payload (mem.collector mem.no_faults 3 1000) fixture.waiting
              "0xb1" (take 2 fixture.chunks)) as (taskDetail & Hrun & Hinfos & Hproofs & Hat).
  - reflexivity.
  - repeat constructor.
  - exists taskDetail. split; [exact Hrun|]. split; [exact Hinfos|]. split; [exact Hproofs|].
    intros i chunk Hi. destruct (Hat i chunk Hi) as (Hproof & Hinfo).
    split; [|exact Hinfo]. rewrite Hproof.
    destruct i as [|[|[|]]]; simpl in Hi; inversion Hi; subst; reflexivity.
Defined.

(** The payload of batch [0xb1], whose chunks carry the proofs [{P1}] and
    [{P2}]: two infos, two proofs, in the order of the chunks. *)
Example formatProverTask_two_chunks :
  (formatProverTask (mem.collector mem.no_faults 3 1000) fixture.waiting "0xb1").1 =
    Some {| Schema_TaskID := "0xb1";
            Schema_ProofType := ProofTypeBatch;
            Schema_ProofData :=
              string_of_bytes
                (mem.json_Marshal
                   {| ChunkInfos :=
                        [ {| ChainID := 534353; PrevStateRoot := 1; PostStateRoot := 2;
                             WithdrawRoot := 3; DataHash := 193; IsPadding := false |};
                          {| ChainID := 534353; PrevStateRoot := 2; PostStateRoot := 4;
                             WithdrawRoot := 5; DataHash := 194; IsPadding := false |} ];
                      ChunkProofs := ["{P1}"; "{P2}"] |}).1 |}.
Proof. vm_compute. reflexivity. Qed.

(** * Properties of the commitment relayer *)

Import l2.

(** The inner loop returns when every transaction has its result. *)
Lemma packTxs_returns {DB Sender : Type} (env : Collaborators DB Sender)
  (results : list ExecutionResult) (txs : list TransactionData) :
  ∀ (j : nat) (gasUsed : Z),
    (j + length txs ≤ length results)%nat →
    ∃ l2txs total, packTxs env results j txs gasUsed = Return (l2txs, total).
Proof.
  induction txs as [|tx rest IH]; intros j gasUsed Hlen; simpl in *.
  - eauto.
  - destruct (lookup_lt_is_Some_2 results j) as [result Hresult]; [lia|].
    rewrite Hresult.
    destruct (IH (Datatypes.S j) (uint64 (gasUsed + ExecutionResult_Gas result)))
      as (l2txs & total & Hrest); [lia|].
    rewrite Hrest. eauto.
Qed.

(** The outer loop returns on well-formed traces. *)
Lemma packBlocks_returns {DB Sender : Type} (env : Collaborators DB Sender)
  (traces : list BlockTrace) :
  Forall results_cover traces →
  ∀ parentHash, ∃ blocks, packBlocks env parentHash traces = Return blocks.
Proof.
  induction 1 as [|trace rest Htrace _ IH]; intros parentHash; simpl.
  - eauto.
  - destruct (packTxs_returns env (trace_ExecutionResults trace) (trace_Transactions trace)
                O 0) as (l2txs & total & Htxs); [exact Htrace|].
    rewrite Htxs. simpl.
    destruct (IH (Header_Hash env (trace_Header trace))) as (blocks & Hrest).
    rewrite Hrest. eauto.
Qed.

(** What the outer loop builds: one block per trace, each with the hash
    of its trace's header; the first block's parent is the [parentHash]
    the loop starts with, the parent of every later block is the hash of
    the block before it. *)
Lemma packBlocks_chain {DB Sender : Type} (env : Collaborators DB Sender)
  (traces : list BlockTrace) :
  ∀ (parentHash : Hash) (blocks : list IZKRollupLayer2BlockHeader),
    packBlocks env parentHash traces = Return blocks →
    length blocks = length traces
    ∧ (∀ i block, blocks !! i = Some block →
         ∃ trace, traces !! i = Some trace
                  ∧ BlockHash block = Header_Hash env (trace_Header trace))
    ∧ (∀ block, blocks !! O = Some block → ParentHash block = parentHash)
    ∧ (∀ i block, blocks !! Datatypes.S i = Some block →
         ∃ previous, blocks !! i = Some previous ∧ ParentHash block = BlockHash previous).
Proof.
  induction traces as [|trace rest IH]; intros parentHash blocks Hrun; simpl in Hrun.
  - inversion Hrun; subst. repeat split; intros; simpl in *; discriminate.
  - destruct (packTxs env (trace_ExecutionResults trace) O (trace_Transactions trace) 0)
      as [[l2txs gasUsed]|reason]; [|discriminate].
    simpl in Hrun.
    destruct (packBlocks env (Header_Hash env (trace_Header trace)) rest)
      as [tail|reason] eqn:Hrest; [|discriminate].
    inversion Hrun; subst; clear Hrun.
    destruct (IH _ _ Hrest) as (Hlen & Hhash & Hfirst & Hnext).
    split; [simpl; congruence|]. split; [|split].
    + intros [|i] block Hblock; simpl in *.
      * inversion Hblock; subst. eauto.
      * apply Hhash. exact Hblock.
    + intros block Hblock. simpl in Hblock. inversion Hblock; subst. reflexivity.
    + intros [|i] block Hblock; simpl in *.
      * eexists. split; [reflexivity|]. simpl. apply Hfirst. exact Hblock.
      * apply Hnext. exact Hblock.
Qed.

(** C4. For a batch row and a non-empty list of traces, the
    [layer2Batch] that [committedPack] builds and packs has one block per
    trace; block 0 has the batch's own [ParentHash] as parent, and every
    block [i+1] has as parent the computed header hash of trace [i], which
    is the [BlockHash] of block [i].  The structure is built whenever each
    trace has an execution result for each of its transactions (otherwise
    the read of [ExecutionResults[j]] panics and nothing is built). *)
Theorem committedPack_parent_chain {DB Sender : Type} (env : Collaborators DB Sender)
  (r : Layer2Relayer DB Sender) (id : string) (batch : BlockBatch)
  (others : list BlockBatch) (traces : list BlockTrace) :
  db_GetBlockBatches env (db r) id = (batch :: others, None) →
  db_GetBlockTraces env (db r) id = (traces, None) →
  traces ≠ [] →
  (Forall results_cover traces →
   ∃ layer2Batch, layer2BatchOf env batch traces = Return layer2Batch)
  ∧ ∀ layer2Batch : IZKRollupLayer2Batch,
      layer2BatchOf env batch traces = Return layer2Batch →
      committedPack env id r =
        match RollupMetaABI_Pack env "commitBatch" layer2Batch with
        | (_, Some err) =>
            (Return (None, [], Some err),
             log (log_Error "Failed to pack commitBatch" id (Some err)) r)
        | (data, None) => (Return (Some batch, data, None), r)
        end
      ∧ length (Blocks layer2Batch) = length traces
      ∧ (∃ first, Blocks layer2Batch !! O = Some first
                  ∧ ParentHash first = common_HexToHash env (BlockBatch_ParentHash batch))
      ∧ (∀ i block, Blocks layer2Batch !! Datatypes.S i = Some block →
           ∃ previous trace,
             Blocks layer2Batch !! i = Some previous
             ∧ traces !! i = Some trace
             ∧ ParentHash block = Header_Hash env (trace_Header trace)
             ∧ ParentHash block = BlockHash previous).
Proof.
  intros Hbatches Htraces Hnonempty. split.
  { intros Hcover.
    destruct (packBlocks_returns env traces Hcover
                (common_HexToHash env (BlockBatch_ParentHash batch))) as (blocks & Hblocks).
    unfold layer2BatchOf. rewrite Hblocks. eauto. }
  intros layer2Batch Hbuilt.
  assert (Hblocks : packBlocks env (common_HexToHash env (BlockBatch_ParentHash batch)) traces
                    = Return (Blocks layer2Batch)).
  { unfold layer2BatchOf in Hbuilt.
    destruct (packBlocks env (common_HexToHash env (BlockBatch_ParentHash batch)) traces)
      as [blocks|reason]; [|discriminate].
    inversion Hbuilt; subst. reflexivity. }
  destruct (packBlocks_chain env traces _ _ Hblocks) as (Hlen & Hhash & Hfirst & Hnext).
  split; [|split; [|split]].
  - unfold committedPack. rewrite Hbatches, Htraces.
    destruct traces as [|trace rest]; [congruence|].
    rewrite Hbuilt. reflexivity.
  - exact Hlen.
  - destruct (Blocks layer2Batch) as [|first rest].
    + destruct traces; [congruence|discriminate].
    + exists first. split; [reflexivity|]. apply Hfirst. reflexivity.
  - intros i block Hblock.
    destruct (Hnext i block Hblock) as (previous & Hprevious & Hparent).
    destruct (Hhash i previous Hprevious) as (trace & Htrace & Hblockhash).
    exists previous, trace. repeat split; congruence.
Qed.

Lemma committedPack_parent_chain_witness :
  ∃ layer2Batch : IZKRollupLayer2Batch,
    committedPack (meml2.collaborators false) "b1" (meml2.start fixture.proved fixture.idle)
      = (Return (Some (fixture.pending_batch "b1" 1),
                 (meml2.Pack "commitBatch" layer2Batch).1, None),
         meml2.start fixture.proved fixture.idle)
    ∧ map (λ block, (BlockHeight block, GasUsed block, ParentHash block)) (Blocks layer2Batch)
      = [ (1, 171000, 170);
          (2, 0, meml2.Header_Hash (trace_Header fixture.block1));
          (3, 0, meml2.Header_Hash (trace_Header fixture.block2)) ].
Proof.
  destruct (committedPack_parent_chain (meml2.collaborators false)
              (meml2.start fixture.proved fixture.idle) "b1"
              (fixture.pending_batch "b1" 1) []
              [fixture.block1; fixture.block2; fixture.block3])
    as (Hbuilds & Hchain).
  - reflexivity.
  - reflexivity.
  - discriminate.
  - destruct Hbuilds as (layer2Batch & Hbuilt); [repeat constructor|].
    destruct (Hchain layer2Batch Hbuilt) as (Hrun & _).
    exists layer2Batch. split; [exact Hrun|].
    vm_compute in Hbuilt. inversion Hbuilt; subst. reflexivity.
Defined.

(** [committedPack] writes to the log only. *)
Lemma committedPack_frame {DB Sender : Type} (env : Collaborators DB Sender)
  (id : string) (r : Layer2Relayer DB Sender) :
  db (committedPack env id r).2 = db r
  ∧ rollupSender (committedPack env id r).2 = rollupSender r
  ∧ processingCommitment (committedPack env id r).2 = processingCommitment r.
Proof.
  unfold committedPack.
  destruct (db_GetBlockBatches env (db r) id) as [[|batch others] [e|]];
    try (repeat split; reflexivity).
  destruct (db_GetBlockTraces env (db r) id) as [[|trace rest] [e|]];
    try (repeat split; reflexivity).
  destruct (layer2BatchOf env batch (trace :: rest)) as [layer2Batch|reason];
    [|repeat split; reflexivity].
  destruct (RollupMetaABI_Pack env "commitBatch" layer2Batch) as [data [e|]];
    repeat split; reflexivity.
Qed.




(** C7, as stated, fails.  When the store update after a successful send
    reports an error, the error is only logged: afterwards the in-flight
    map holds [b1-commit], the sender knows the transaction, and the
    store is unchanged (batch [b1] still Pending, no commit hash). *)
Lemma ProcessPendingBatches_registers_without_store_update :
  let run := ProcessPendingBatches (meml2.collaborators true)
               (meml2.start fixture.proved fixture.idle) in
  run.1 = Return tt
  ∧ map meml2.known_ID (meml2.known_txs (rollupSender run.2)) = ["b1-commit"]
  ∧ processingCommitment run.2 !! "b1-commit" = Some "b1"
  ∧ db run.2 = fixture.proved
  ∧ map BlockBatch_RollupStatus (meml2.block_batch_rows (db run.2))
    = [RollupPending; RollupPending].
Proof. vm_compute. repeat split; reflexivity. Qed.

(** C7, amended.  When [committedPack] has produced the batch row and its
    calldata and [SendTransaction] succeeds, [ProcessPendingBatches]
    returns normally with the entry [<id>-commit -> id] registered in the
    in-flight map; it makes one call that writes the commit hash and the
    status Committing together, and when that call succeeds the store is
    the one it produced. *)
Theorem ProcessPendingBatches_registers_commit {DB Sender : Type}
  (env : Collaborators DB Sender) (r : Layer2Relayer DB Sender) (id : string)
  (ids : list string) (batch : BlockBatch) (data : bytes) (hash : Hash) (s : Sender) :
  db_GetPendingBatches env (db r) 1 = (id :: ids, None) →
  (committedPack env id r).1 = Return (Some batch, data, None) →
  sender_SendTransaction env (rollupSender r) (id +:+ "-commit")
    (cfg_RollupContractAddress env) 0 data = ((hash, None), s) →
  let run := ProcessPendingBatches env r in
  run.1 = Return tt
  ∧ processingCommitment run.2 = <[id +:+ "-commit" := id]> (processingCommitment r)
  ∧ rollupSender run.2 = s
  ∧ ∀ d : DB,
      db_UpdateCommitTxHashAndRollupStatus env (db r) id (Hash_String env hash)
        RollupCommitting = (None, d) →
      db run.2 = d.
Proof.
  intros Hpending Hpack Hsend run. subst run.
  destruct (committedPack_frame env id r) as (Hdb & Hsender & Hmap).
  unfold ProcessPendingBatches. rewrite Hpending.
  destruct (committedPack env id r) as [packed r1]. simpl in *. subst packed.
  rewrite Hsender, Hsend. simpl. rewrite Hdb.
  destruct (db_UpdateCommitTxHashAndRollupStatus env (db r) id (Hash_String env hash)
              RollupCommitting) as [[e|] d']; simpl;
    (split; [reflexivity|]); (split; [rewrite Hmap; reflexivity|]);
    (split; [reflexivity|]); intros d Hd; congruence.
Qed.

Lemma ProcessPendingBatches_registers_commit_witness :
  let run := ProcessPendingBatches (meml2.collaborators false)
               (meml2.start fixture.proved fixture.idle) in
  run.1 = Return tt
  ∧ processingCommitment run.2 = <["b1-commit" := "b1"]> ∅
  ∧ map meml2.known_ID (meml2.known_txs (rollupSender run.2)) = ["b1-commit"]
  ∧ map BlockBatch_RollupStatus (meml2.block_batch_rows (db run.2))
    = [RollupCommitting; RollupPending].
Proof.
  intros run.
  edestruct (ProcessPendingBatches_registers_commit (meml2.collaborators false)
               (meml2.start fixture.proved fixture.idle) "b1" []
               (fixture.pending_batch "b1" 1))
    as (Hreturn & Hmap & Hsender & Hstore).
  - reflexivity.
  - vm_compute. reflexivity.
  - vm_compute. reflexivity.
  - split; [exact Hreturn|]. split; [exact Hmap|].
    subst run. rewrite Hsender.
    erewrite Hstore; [|vm_compute; reflexivity].
    split; reflexivity.
Defined.

(** * Empty inputs *)

(** C8, as stated, fails.  Batch [0xb3] has no chunk; [formatProverTask]
    reports no error and returns a payload for it, whose two arrays are
    nil. *)
Lemma formatProverTask_accepts_zero_chunks :
  let bp := mem.collector mem.no_faults 3 1000 in
  chunkOrm_GetChunksByBatchHash bp fixture.waiting "0xb3" = ([], None)
  ∧ formatProverTask bp fixture.waiting "0xb3" =
      (Some {| Schema_TaskID := "0xb3";
               Schema_ProofType := ProofTypeBatch;
               Schema_ProofData :=
                 string_of_bytes
                   (mem.json_Marshal {| ChunkInfos := []; ChunkProofs := [] |}).1 |},
       None).
Proof. vm_compute. split; reflexivity. Qed.

(** C8, amended.  [formatProverTask] has no check on the number of
    chunks: for a batch without chunks it marshals a task detail with two
    nil arrays and returns it as the payload.  [committedPack], for a
    batch row whose trace set is empty, logs "Failed to GetBlockTraces"
    and constructs nothing: it returns no batch row and nil calldata, and
    the packer is not run. *)
Theorem empty_inputs {DB ChunkProof DB' Sender : Type}
  (bp : BatchProverTask DB ChunkProof) (d : DB) (taskID : string)
  (env : Collaborators DB' Sender) (r : Layer2Relayer DB' Sender) (id : string)
  (batch : BlockBatch) (others : list BlockBatch) :
  chunkOrm_GetChunksByBatchHash bp d taskID = ([], None) →
  db_GetBlockBatches env (db r) id = (batch :: others, None) →
  (db_GetBlockTraces env (db r) id).1 = [] →
  formatProverTask bp d taskID =
    match json_Marshal bp {| ChunkInfos := []; ChunkProofs := [] |} with
    | (_, Some err) =>
        (None, Some (fmt_Errorf_w "failed to marshal chunk proofs, taskID:%s err:%w"
                       [taskID] err))
    | (chunkProofsBytes, None) =>
        (Some {| Schema_TaskID := taskID;
                 Schema_ProofType := ProofTypeBatch;
                 Schema_ProofData := string_of_bytes chunkProofsBytes |}, None)
    end
  ∧ ∃ err : option error,
      committedPack env id r =
        (Return (None, [], err), log (log_Error "Failed to GetBlockTraces" id err) r).
Proof.
  intros Hchunks Hbatches Htraces. split.
  - unfold formatProverTask. rewrite Hchunks. reflexivity.
  - unfold committedPack. rewrite Hbatches.
    destruct (db_GetBlockTraces env (db r) id) as [traces err]. simpl in Htraces.
    subst traces. exists err. destruct err; reflexivity.
Qed.

Lemma empty_inputs_witness :
  (formatProverTask (mem.collector mem.no_faults 3 1000) fixture.waiting "0xb3").2 = None
  ∧ ∃ err : option error,
      committedPack (meml2.collaborators false) "b2"
        (meml2.start fixture.proved fixture.idle) =
        (Return (None, [], err),
         log (log_Error "Failed to GetBlockTraces" "b2" err)
           (meml2.start fixture.proved fixture.idle)).
Proof.
  destruct (empty_inputs (mem.collector mem.no_faults 3 1000) fixture.waiting "0xb3"
              (meml2.collaborators false) (meml2.start fixture.proved fixture.idle) "b2"
              (fixture.pending_batch "b2" 2) []) as (Hformat & Hpack).
  - reflexivity.
  - reflexivity.
  - reflexivity.
  - split; [rewrite Hformat; reflexivity | exact Hpack].
Defined.

(** What the relayer does with a pending batch that owns no trace:
    [committedPack] returns a nil error with its nil results, so
    [ProcessPendingBatches] goes on, sends a transaction with empty
    calldata and then panics on the nil batch row. *)
Example ProcessPendingBatches_traceless_batch :
  let run := ProcessPendingBatches (meml2.collaborators false)
               (meml2.start fixture.traceless fixture.idle) in
  run.1 = Panics "invalid memory address or nil pointer dereference"
  ∧ map (λ t, (meml2.known_ID t, meml2.known_data t)) (meml2.known_txs (rollupSender run.2))
    = [("b2-commit", [])]
  ∧ logged run.2 = [log_Error "Failed to GetBlockTraces" "b2" None]
  ∧ processingCommitment run.2 = ∅.
Proof. vm_compute. repeat split; reflexivity. Qed.

(** * Further properties of the commitment relayer *)

(** Each block the outer loop builds comes from the trace at its
    position: its transactions and gas are what the inner loop returns
    for that trace, and its header fields are copied from the trace. *)
Lemma packBlocks_block {DB Sender : Type} (env : Collaborators DB Sender)
  (traces : list BlockTrace) :
  ∀ (parentHash : Hash) (blocks : list IZKRollupLayer2BlockHeader),
    packBlocks env parentHash traces = Return blocks →
    ∀ i block, blocks !! i = Some block →
      ∃ trace,
        traces !! i = Some trace
        ∧ packTxs env (trace_ExecutionResults trace) O (trace_Transactions trace) 0
          = Return (Txs block, GasUsed block)
        ∧ BlockHash block = Header_Hash env (trace_Header trace)
        ∧ BaseFee block = Header_BaseFee (trace_Header trace)
        ∧ StateRoot block = trace_StorageTrace_RootAfter trace
        ∧ BlockHeight block = Uint64 (Header_Number (trace_Header trace))
        ∧ Timestamp block = Header_Time (trace_Header trace)
        ∧ ExtraData block = [].
Proof.
  induction traces as [|trace rest IH]; intros parentHash blocks Hrun; simpl in Hrun.
  - inversion Hrun; subst. intros i block Hblock. destruct i; discriminate.
  - destruct (packTxs env (trace_ExecutionResults trace) O (trace_Transactions trace) 0)
      as [[l2txs gasUsed]|reason] eqn:Htxs; [|discriminate].
    simpl in Hrun.
    destruct (packBlocks env (Header_Hash env (trace_Header trace)) rest)
      as [tail|reason] eqn:Hrest; [|discriminate].
    inversion Hrun; subst; clear Hrun.
    intros [|i] block Hblock; simpl in Hblock.
    + inversion Hblock; subst. exists trace. simpl. repeat split; try reflexivity.
      exact Htxs.
    + exact (IH _ _ Hrest i block Hblock).
Qed.

(** The running gas of the inner loop: nothing is added for an empty
    list, otherwise the results of the transactions are added modulo
    2^64. *)
Lemma packTxs_gas {DB Sender : Type} (env : Collaborators DB Sender)
  (results : list ExecutionResult) (txs : list TransactionData) :
  ∀ (j : nat) (gasUsed : Z) l2txs total,
    packTxs env results j txs gasUsed = Return (l2txs, total) →
    total = match txs with
            | [] => gasUsed
            | _ => uint64 (gasUsed + cases.gas_total (take (length txs) (drop j results)))
            end.
Proof.
  induction txs as [|tx rest IH]; intros j gasUsed l2txs total Hrun; simpl in Hrun.
  - inversion Hrun; subst. reflexivity.
  - destruct (results !! j) as [result|] eqn:Hresult; [|discriminate].
    destruct (packTxs env results (Datatypes.S j) rest
                (uint64 (gasUsed + ExecutionResult_Gas result)))
      as [[tail total']|reason] eqn:Hrest; [|discriminate].
    inversion Hrun; subst; clear Hrun.
    rewrite (drop_S _ _ _ Hresult). simpl.
    rewrite (IH _ _ _ _ Hrest).
    destruct rest as [|tx' rest'].
    + simpl. rewrite Z.add_0_r. reflexivity.
    + unfold uint64. rewrite Zplus_mod_idemp_l. f_equal. lia.
Qed.

(** X1. In the structure [committedPack] packs, the [GasUsed] of every
    block is the sum, modulo 2^64, of the gas of the execution results
    of its trace's transactions. *)
Theorem layer2BatchOf_GasUsed {DB Sender : Type} (env : Collaborators DB Sender)
  (batch : BlockBatch) (traces : list BlockTrace) (layer2Batch : IZKRollupLayer2Batch) :
  layer2BatchOf env batch traces = Return layer2Batch →
  ∀ i block, Blocks layer2Batch !! i = Some block →
    ∃ trace,
      traces !! i = Some trace
      ∧ GasUsed block =
          uint64 (cases.gas_total
                    (take (length (trace_Transactions trace)) (trace_ExecutionResults trace))).
Proof.
  intros Hbuilt i block Hblock. unfold layer2BatchOf in Hbuilt.
  destruct (packBlocks env (common_HexToHash env (BlockBatch_ParentHash batch)) traces)
    as [blocks|reason] eqn:Hblocks; [|discriminate].
  inversion Hbuilt; subst; clear Hbuilt. simpl in Hblock.
  destruct (packBlocks_block env traces _ _ Hblocks i block Hblock)
    as (trace & Htrace & Htxs & _).
  exists trace. split; [exact Htrace|].
  rewrite (packTxs_gas env _ _ _ _ _ _ Htxs).
  destruct (trace_Transactions trace); simpl; [reflexivity|].
  rewrite drop_0. reflexivity.
Qed.

Lemma layer2BatchOf_GasUsed_witness :
  ∃ block,
    GasUsed block = 171000
    ∧ ∃ layer2Batch,
        layer2BatchOf (meml2.collaborators false) (fixture.pending_batch "b1" 1)
          [fixture.block1; fixture.block2] = Return layer2Batch
        ∧ Blocks layer2Batch !! O = Some block.
Proof.
  edestruct (layer2BatchOf_GasUsed (meml2.collaborators false)
               (fixture.pending_batch "b1" 1) [fixture.block1; fixture.block2]
               _ ltac:(vm_compute; reflexivity) O)
    as (trace & Htrace & Hgas).
  - simpl. reflexivity.
  - eexists. split; [|eexists; split; [vm_compute; reflexivity|simpl; reflexivity]].
    simpl in Htrace. inversion Htrace; subst. rewrite Hgas. reflexivity.
Defined.

(** The inner loop translates the transactions one for one, in order. *)
Lemma packTxs_fields {DB Sender : Type} (env : Collaborators DB Sender)
  (results : list ExecutionResult) (txs : list TransactionData) :
  ∀ (j : nat) (gasUsed : Z) l2txs total,
    packTxs env results j txs gasUsed = Return (l2txs, total) →
    length l2txs = length txs
    ∧ ∀ k tx, txs !! k = Some tx →
        ∃ l2tx,
          l2txs !! k = Some l2tx
          ∧ Caller l2tx = tx_From tx
          ∧ Nonce l2tx = tx_Nonce tx
          ∧ Target l2tx = match tx_To tx with Some to => to | None => 0 end
          ∧ Gas l2tx = tx_Gas tx
          ∧ GasPrice l2tx = tx_GasPrice tx
          ∧ Value l2tx = tx_Value tx
          ∧ Data l2tx = common_Hex2Bytes env (tx_Data tx)
          ∧ sig_R l2tx = tx_R tx
          ∧ sig_S l2tx = tx_S tx
          ∧ sig_V l2tx = Uint64 (tx_V tx).
Proof.
  induction txs as [|tx rest IH]; intros j gasUsed l2txs total Hrun; simpl in Hrun.
  - inversion Hrun; subst. split; [reflexivity|]. intros k tx Hk. destruct k; discriminate.
  - destruct (results !! j) as [result|]; [|discriminate].
    destruct (packTxs env results (Datatypes.S j) rest
                (uint64 (gasUsed + ExecutionResult_Gas result)))
      as [[tail total']|reason] eqn:Hrest; [|discriminate].
    inversion Hrun; subst; clear Hrun.
    destruct (IH _ _ _ _ Hrest) as (Hlen & Hfields).
    split; [simpl; congruence|].
    intros [|k] tx' Hk; simpl in Hk.
    + inversion Hk; subst. eexists. split; [reflexivity|]. simpl.
      repeat split; reflexivity.
    + exact (Hfields k tx' Hk).
Qed.

(** X2. In the structure [committedPack] packs, every block carries one
    transaction per transaction of its trace, in order, with caller,
    nonce, gas, gas price, value and signature copied, the data decoded
    from hex and [V] cut to 64 bits; the target is the recipient, and
    the zero address for a contract creation ([To] nil). *)
Theorem layer2BatchOf_Txs {DB Sender : Type} (env : Collaborators DB Sender)
  (batch : BlockBatch) (traces : list BlockTrace) (layer2Batch : IZKRollupLayer2Batch) :
  layer2BatchOf env batch traces = Return layer2Batch →
  ∀ i block, Blocks layer2Batch !! i = Some block →
    ∃ trace,
      traces !! i = Some trace
      ∧ length (Txs block) = length (trace_Transactions trace)
      ∧ ∀ k tx, trace_Transactions trace !! k = Some tx →
          ∃ l2tx,
            Txs block !! k = Some l2tx
            ∧ Caller l2tx = tx_From tx
            ∧ Nonce l2tx = tx_Nonce tx
            ∧ Target l2tx = match tx_To tx with Some to => to | None => 0 end
            ∧ Gas l2tx = tx_Gas tx
            ∧ GasPrice l2tx = tx_GasPrice tx
            ∧ Value l2tx = tx_Value tx
            ∧ Data l2tx = common_Hex2Bytes env (tx_Data tx)
            ∧ sig_R l2tx = tx_R tx
            ∧ sig_S l2tx = tx_S tx
            ∧ sig_V l2tx = Uint64 (tx_V tx).
Proof.
  intros Hbuilt i block Hblock. unfold layer2BatchOf in Hbuilt.
  destruct (packBlocks env (common_HexToHash env (BlockBatch_ParentHash batch)) traces)
    as [blocks|reason] eqn:Hblocks; [|discriminate].
  inversion Hbuilt; subst; clear Hbuilt. simpl in Hblock.
  destruct (packBlocks_block env traces _ _ Hblocks i block Hblock)
    as (trace & Htrace & Htxs & _).
  exists trace. split; [exact Htrace|].
  exact (packTxs_fields env _ _ _ _ _ _ Htxs).
Qed.

Lemma layer2BatchOf_Txs_witness :
  ∃ layer2Batch,
    layer2BatchOf (meml2.collaborators false) (fixture.pending_batch "b1" 1)
      [fixture.block1; fixture.block2] = Return layer2Batch
    ∧ ∃ block, Blocks layer2Batch !! O = Some block
               ∧ map Target (Txs block) = [9; 0; 9]
               ∧ map Nonce (Txs block) = [0; 1; 2].
Proof.
  edestruct (layer2BatchOf_Txs (meml2.collaborators false)
               (fixture.pending_batch "b1" 1) [fixture.block1; fixture.block2]
               _ ltac:(vm_compute; reflexivity) O)
    as (trace & Htrace & Hlen & Hfields).
  - simpl. reflexivity.
  - eexists. split; [vm_compute; reflexivity|].
    eexists. split; [simpl; reflexivity|]. split; reflexivity.
Defined.

(** X3. The structure [committedPack] packs carries the index of the
    batch row and its parent hash; every block carries the computed
    hash of its trace's header, the header's base fee and timestamp, its
    number cut to 64 bits as height, the state root after the block, and
    empty extra data. *)
Theorem layer2BatchOf_headers {DB Sender : Type} (env : Collaborators DB Sender)
  (batch : BlockBatch) (traces : list BlockTrace) (layer2Batch : IZKRollupLayer2Batch) :
  layer2BatchOf env batch traces = Return layer2Batch →
  BatchIndex layer2Batch = BlockBatch_Index batch
  ∧ Batch_ParentHash layer2Batch = common_HexToHash env (BlockBatch_ParentHash batch)
  ∧ ∀ i block, Blocks layer2Batch !! i = Some block →
      ∃ trace,
        traces !! i = Some trace
        ∧ BlockHash block = Header_Hash env (trace_Header trace)
        ∧ BaseFee block = Header_BaseFee (trace_Header trace)
        ∧ StateRoot block = trace_StorageTrace_RootAfter trace
        ∧ BlockHeight block = Uint64 (Header_Number (trace_Header trace))
        ∧ Timestamp block = Header_Time (trace_Header trace)
        ∧ ExtraData block = [].
Proof.
  intros Hbuilt. unfold layer2BatchOf in Hbuilt.
  destruct (packBlocks env (common_HexToHash env (BlockBatch_ParentHash batch)) traces)
    as [blocks|reason] eqn:Hblocks; [|discriminate].
  inversion Hbuilt; subst; clear Hbuilt. simpl.
  split; [reflexivity|]. split; [reflexivity|].
  intros i block Hblock.
  destruct (packBlocks_block env traces _ _ Hblocks i block Hblock)
    as (trace & Htrace & _ & Hfields).
  exists trace. split; [exact Htrace|exact Hfields].
Qed.

Lemma layer2BatchOf_headers_witness :
  ∃ layer2Batch,
    layer2BatchOf (meml2.collaborators false) (fixture.pending_batch "b1" 1)
      [fixture.block1; fixture.block2] = Return layer2Batch
    ∧ BatchIndex layer2Batch = 1
    ∧ Batch_ParentHash layer2Batch = 170
    ∧ map (λ block, (BlockHeight block, Timestamp block, StateRoot block, BaseFee block))
        (Blocks layer2Batch)
      = [(1, 100, 21, Some 7); (2, 103, 22, None)].
Proof.
  edestruct (layer2BatchOf_headers (meml2.collaborators false)
               (fixture.pending_batch "b1" 1) [fixture.block1; fixture.block2]
               _ ltac:(vm_compute; reflexivity))
    as (Hindex & Hparent & Hblocks).
  eexists. split; [vm_compute; reflexivity|].
  split; [exact Hindex|]. split; [exact Hparent|]. reflexivity.
Defined.

(** The inner loop returns only when every transaction has its result. *)
Lemma packTxs_returns_inv {DB Sender : Type} (env : Collaborators DB Sender)
  (results : list ExecutionResult) (txs : list TransactionData) :
  ∀ (j : nat) (gasUsed : Z) l2txs total,
    packTxs env results j txs gasUsed = Return (l2txs, total) →
    txs = [] ∨ (j + length txs ≤ length results)%nat.
Proof.
  induction txs as [|tx rest IH]; intros j gasUsed l2txs total Hrun; simpl in Hrun.
  - left. reflexivity.
  - right. destruct (results !! j) as [result|] eqn:Hresult; [|discriminate].
    apply lookup_lt_Some in Hresult.
    destruct (packTxs env results (Datatypes.S j) rest
                (uint64 (gasUsed + ExecutionResult_Gas result)))
      as [[tail total']|reason] eqn:Hrest; [|discriminate].
    destruct (IH _ _ _ _ Hrest) as [->|Hle]; simpl; lia.
Qed.

(** The only panic of the two loops is the read past the end of
    [ExecutionResults]. *)
Lemma packTxs_panic {DB Sender : Type} (env : Collaborators DB Sender)
  (results : list ExecutionResult) (txs : list TransactionData) :
  ∀ (j : nat) (gasUsed : Z) reason,
    packTxs env results j txs gasUsed = Panics reason → reason = "index out of range".
Proof.
  induction txs as [|tx rest IH]; intros j gasUsed reason Hrun; simpl in Hrun.
  - discriminate.
  - destruct (results !! j) as [result|]; [|inversion Hrun; reflexivity].
    destruct (packTxs env results (Datatypes.S j) rest
                (uint64 (gasUsed + ExecutionResult_Gas result)))
      as [[tail total']|reason'] eqn:Hrest; [discriminate|].
    inversion Hrun; subst. exact (IH _ _ _ Hrest).
Qed.

Lemma packBlocks_outcome {DB Sender : Type} (env : Collaborators DB Sender)
  (traces : list BlockTrace) :
  ∀ parentHash,
    match packBlocks env parentHash traces with
    | Return _ => Forall results_cover traces
    | Panics reason => reason = "index out of range"
    end.
Proof.
  induction traces as [|trace rest IH]; intros parentHash; simpl.
  - constructor.
  - destruct (packTxs env (trace_ExecutionResults trace) O (trace_Transactions trace) 0)
      as [[l2txs gasUsed]|reason] eqn:Htxs.
    + simpl. specialize (IH (Header_Hash env (trace_Header trace))).
      destruct (packBlocks env (Header_Hash env (trace_Header trace)) rest)
        as [tail|reason]; [|exact IH].
      constructor; [|exact IH]. unfold results_cover.
      destruct (packTxs_returns_inv env _ _ _ _ _ _ Htxs) as [->|Hle]; simpl in *; lia.
    + exact (packTxs_panic env _ _ _ _ _ Htxs).
Qed.

(** X4. With the batch row read, [committedPack] panics exactly when
    some trace of the batch has fewer execution results than
    transactions; the panic is the index out of range, and it leaves the
    relayer as it was, with nothing logged. *)
Theorem committedPack_panics_iff {DB Sender : Type} (env : Collaborators DB Sender)
  (r : Layer2Relayer DB Sender) (id : string) (batch : BlockBatch)
  (others : list BlockBatch) (traces : list BlockTrace) :
  db_GetBlockBatches env (db r) id = (batch :: others, None) →
  db_GetBlockTraces env (db r) id = (traces, None) →
  (committedPack env id r = (Panics "index out of range", r)
   ↔ ¬ Forall results_cover traces)
  ∧ ∀ reason r1, committedPack env id r = (Panics reason, r1) →
                 reason = "index out of range" ∧ r1 = r.
Proof.
  intros Hbatches Htraces.
  pose proof (packBlocks_outcome env traces
                (common_HexToHash env (BlockBatch_ParentHash batch))) as Houtcome.
  unfold committedPack. rewrite Hbatches, Htraces. unfold layer2BatchOf.
  destruct traces as [|trace rest].
  { split; [split; [discriminate|]|discriminate].
    intros Hnot. exfalso. apply Hnot. constructor. }
  destruct (packBlocks env (common_HexToHash env (BlockBatch_ParentHash batch))
              (trace :: rest)) as [blocks|reason] eqn:Hblocks.
  - destruct (RollupMetaABI_Pack env "commitBatch" _) as [data [e|]];
      (split; [split; [discriminate|intros Hnot; exfalso; exact (Hnot Houtcome)]
              |discriminate]).
  - subst reason. split.
    + split; [|reflexivity]. intros _ Hcover.
      destruct (packBlocks_returns env (trace :: rest) Hcover
                  (common_HexToHash env (BlockBatch_ParentHash batch))) as (blocks & Hreturns).
      congruence.
    + intros reason r1 Hrun. inversion Hrun; subst. split; reflexivity.
Qed.

Lemma committedPack_panics_iff_witness :
  committedPack (meml2.collaborators false) "b3" (meml2.start cases.malformed fixture.idle)
    = (Panics "index out of range", meml2.start cases.malformed fixture.idle).
Proof.
  destruct (committedPack_panics_iff (meml2.collaborators false)
              (meml2.start cases.malformed fixture.idle) "b3"
              (fixture.pending_batch "b3" 3) [] [fixture.block3; cases.short_block])
    as ((_ & Hpanics) & _).
  - reflexivity.
  - reflexivity.
  - apply Hpanics. intros Hcover.
    inversion Hcover as [|? ? _ Hrest]; subst.
    inversion Hrest as [|? ? Hshort _]; subst.
    unfold results_cover in Hshort. simpl in Hshort. lia.
Defined.

(** X5. The three ways [committedPack] ends.  It returns a batch row
    only with a nil error and the calldata packed from the structure
    built for that row, the first the store returned, and then leaves the
    relayer as it was.  When it returns no row the calldata is nil and it
    has logged exactly one error line, which carries the error it
    returns.  When it panics it has changed nothing. *)
Theorem committedPack_outcomes {DB Sender : Type} (env : Collaborators DB Sender)
  (id : string) (r : Layer2Relayer DB Sender) :
  match committedPack env id r with
  | (Return (Some batch, data, err), r1) =>
      err = None ∧ r1 = r
      ∧ ∃ others traces layer2Batch,
          db_GetBlockBatches env (db r) id = (batch :: others, None)
          ∧ db_GetBlockTraces env (db r) id = (traces, None)
          ∧ traces ≠ []
          ∧ layer2BatchOf env batch traces = Return layer2Batch
          ∧ RollupMetaABI_Pack env "commitBatch" layer2Batch = (data, None)
  | (Return (None, data, err), r1) =>
      data = [] ∧ ∃ msg, r1 = log (log_Error msg id err) r
  | (Panics _, r1) => r1 = r
  end.
Proof.
  unfold committedPack.
  destruct (db_GetBlockBatches env (db r) id) as [[|batch others] [e|]] eqn:Hbatches;
    try (split; [reflexivity|eexists; reflexivity]).
  destruct (db_GetBlockTraces env (db r) id) as [[|trace rest] [e|]] eqn:Htraces;
    try (split; [reflexivity|eexists; reflexivity]).
  destruct (layer2BatchOf env batch (trace :: rest)) as [layer2Batch|reason] eqn:Hbuilt;
    [|reflexivity].
  destruct (RollupMetaABI_Pack env "commitBatch" layer2Batch) as [data [e|]] eqn:Hpack.
  - split; [reflexivity|eexists; reflexivity].
  - split; [reflexivity|]. split; [reflexivity|].
    exists others, (trace :: rest), layer2Batch. repeat split; try assumption.
    discriminate.
Qed.

(** A run of [committedPack] does not panic on well-formed traces. *)
Lemma committedPack_returns {DB Sender : Type} (env : Collaborators DB Sender)
  (id : string) (r : Layer2Relayer DB Sender) :
  Forall results_cover (db_GetBlockTraces env (db r) id).1 →
  ∃ result, (committedPack env id r).1 = Return result.
Proof.
  intros Hcover. unfold committedPack.
  destruct (db_GetBlockBatches env (db r) id) as [[|batch others] [e|]];
    try (eexists; reflexivity).
  destruct (db_GetBlockTraces env (db r) id) as [[|trace rest] [e|]];
    try (eexists; reflexivity).
  simpl in Hcover.
  destruct (packBlocks_returns env (trace :: rest) Hcover
              (common_HexToHash env (BlockBatch_ParentHash batch))) as (blocks & Hblocks).
  unfold layer2BatchOf. rewrite Hblocks.
  destruct (RollupMetaABI_Pack env "commitBatch" _) as [data [e|]]; eexists; reflexivity.
Qed.

(** What the loop of [commitInit] keeps: the store, every key of the
    in-flight map, and every entry that is not [<id>-commit -> id] for an
    id of the list. *)
Lemma commitInit_loop_frame {DB Sender : Type} (env : Collaborators DB Sender)
  (ids : list string) :
  ∀ r : Layer2Relayer DB Sender,
    db (commitInit_loop env ids r).2 = db r
    ∧ (∀ key v,
         processingCommitment (commitInit_loop env ids r).2 !! key = Some v →
         processingCommitment r !! key = Some v
         ∨ ∃ id, id ∈ ids ∧ key = id +:+ "-commit" ∧ v = id)
    ∧ (∀ key, is_Some (processingCommitment r !! key) →
              is_Some (processingCommitment (commitInit_loop env ids r).2 !! key)).
Proof.
  induction ids as [|id rest IH]; intros r.
  { simpl. split; [reflexivity|]. split; [intros key v Hv; left; exact Hv|].
    intros key Hkey. exact Hkey. }
  assert (Hstep : ∀ r2 : Layer2Relayer DB Sender,
            db r2 = db r →
            (processingCommitment r2 = processingCommitment r
             ∨ processingCommitment r2
               = <[id +:+ "-commit" := id]> (processingCommitment r)) →
            db (commitInit_loop env rest r2).2 = db r
            ∧ (∀ key v,
                 processingCommitment (commitInit_loop env rest r2).2 !! key = Some v →
                 processingCommitment r !! key = Some v
                 ∨ ∃ id', id' ∈ id :: rest ∧ key = id' +:+ "-commit" ∧ v = id')
            ∧ (∀ key, is_Some (processingCommitment r !! key) →
                      is_Some (processingCommitment (commitInit_loop env rest r2).2 !! key))).
  { intros r2 Hdb Hmap. destruct (IH r2) as (Hdb2 & Hnew & Hkeep).
    split; [congruence|]. split.
    - intros key v Hv. destruct (Hnew key v Hv) as [Hold|(id' & Hin & Hkey & Hval)].
      + destruct Hmap as [Hmap|Hmap]; rewrite Hmap in Hold; [left; exact Hold|].
        destruct (decide (id +:+ "-commit" = key)) as [Heq|Hne].
        * subst key. rewrite lookup_insert_eq in Hold. inversion Hold; subst.
          right. exists v. split; [left|split; reflexivity].
        * rewrite lookup_insert_ne in Hold by exact Hne. left. exact Hold.
      + right. exists id'. split; [right; exact Hin|split; assumption].
    - intros key Hkey. apply Hkeep.
      destruct Hmap as [Hmap|Hmap]; rewrite Hmap; [exact Hkey|].
      destruct (decide (id +:+ "-commit" = key)) as [Heq|Hne].
      + subst key. rewrite lookup_insert_eq. eexists. reflexivity.
      + rewrite lookup_insert_ne by exact Hne. exact Hkey. }
  simpl.
  destruct (db_GetCommitTxHash env (db r) id) as [txStr [e|]].
  { apply Hstep; [reflexivity|left; reflexivity]. }
  destruct (committedPack_frame env id r) as (Hdb1 & Hsender1 & Hmap1).
  destruct (committedPack env id r) as [[[[row data] [e|]]|reason] r1]; simpl in *.
  - apply Hstep; [exact Hdb1|left; exact Hmap1].
  - destruct (sender_LoadOrSendTx env (rollupSender r1)
                (common_HexToHash env (NullString_String txStr)) (id +:+ "-commit")
                (cfg_RollupContractAddress env) 0 data) as [[e|] s].
    + apply Hstep; [exact Hdb1|left; exact Hmap1].
    + apply Hstep; [exact Hdb1|right; simpl; rewrite Hmap1; reflexivity].
  - split; [exact Hdb1|]. split.
    + intros key v Hv. left. rewrite <- Hmap1. exact Hv.
    + intros key Hkey. rewrite Hmap1. exact Hkey.
Qed.

(** X6. [commitInit] never writes the store: whatever it resumes, skips
    or panics on, the store it leaves is the one it started with. *)
Theorem commitInit_keeps_store {DB Sender : Type} (env : Collaborators DB Sender)
  (r : Layer2Relayer DB Sender) :
  db (commitInit env r).2 = db r.
Proof.
  unfold commitInit.
  destruct (db_GetBatchesByRollupStatus env (db r) RollupCommitting 10)
    as [[|id rest] [e|]]; try reflexivity.
  destruct (commitInit_loop_frame env (id :: rest) r) as (Hdb & _).
  destruct (commitInit_loop env (id :: rest) r) as [[[]|reason] r1]; exact Hdb.
Qed.

(** X7. [commitInit] only adds to the in-flight map: every key present
    before is present after, and every entry after is either an entry
    from before or [<id>-commit -> id] for one of the at most ten
    Committing ids the store listed. *)
Theorem commitInit_in_flight_entries {DB Sender : Type} (env : Collaborators DB Sender)
  (r : Layer2Relayer DB Sender) :
  (∀ key, is_Some (processingCommitment r !! key) →
          is_Some (processingCommitment (commitInit env r).2 !! key))
  ∧ ∀ key v,
      processingCommitment (commitInit env r).2 !! key = Some v →
      processingCommitment r !! key = Some v
      ∨ ∃ id, id ∈ (db_GetBatchesByRollupStatus env (db r) RollupCommitting 10).1
              ∧ key = id +:+ "-commit" ∧ v = id.
Proof.
  unfold commitInit.
  destruct (db_GetBatchesByRollupStatus env (db r) RollupCommitting 10)
    as [[|id rest] [e|]];
    try (split; [intros key Hkey; exact Hkey|intros key v Hv; left; exact Hv]).
  destruct (commitInit_loop_frame env (id :: rest) r) as (_ & Hnew & Hkeep).
  destruct (commitInit_loop env (id :: rest) r) as [[[]|reason] r1];
    (split; [exact Hkeep|exact Hnew]).
Qed.

(** The loop of [commitInit] runs to its end when the traces of the
    listed batches are well formed. *)
Lemma commitInit_loop_returns {DB Sender : Type} (env : Collaborators DB Sender)
  (ids : list string) :
  ∀ r : Layer2Relayer DB Sender,
    (∀ id, id ∈ ids → Forall results_cover (db_GetBlockTraces env (db r) id).1) →
    (commitInit_loop env ids r).1 = Return tt.
Proof.
  induction ids as [|id rest IH]; intros r Hcover; [reflexivity|].
  assert (Hnext : ∀ r2 : Layer2Relayer DB Sender,
            db r2 = db r → (commitInit_loop env rest r2).1 = Return tt).
  { intros r2 Hdb. apply IH. intros id' Hin. rewrite Hdb. apply Hcover. right. exact Hin. }
  simpl.
  destruct (db_GetCommitTxHash env (db r) id) as [txStr [e|]].
  { apply Hnext. reflexivity. }
  destruct (committedPack_frame env id r) as (Hdb1 & _).
  destruct (committedPack_returns env id r) as (result & Hresult).
  { apply Hcover. left. }
  destruct (committedPack env id r) as [packed r1]. simpl in *. subst packed.
  destruct result as [[row data] [e|]].
  - apply Hnext. exact Hdb1.
  - destruct (sender_LoadOrSendTx env (rollupSender r1)
                (common_HexToHash env (NullString_String txStr)) (id +:+ "-commit")
                (cfg_RollupContractAddress env) 0 data) as [[e|] s];
      apply Hnext; exact Hdb1.
Qed.

(** X8. [commitInit] reports the error of the listing of Committing
    batches and no other: when the traces of the listed batches are well
    formed it returns that error (nil when the listing succeeded),
    whatever failed for the individual batches.  When the listing fails
    or is empty the relayer is left as it was. *)
Theorem commitInit_reports_listing_only {DB Sender : Type} (env : Collaborators DB Sender)
  (r : Layer2Relayer DB Sender) (ids : list string) (err : option error) :
  db_GetBatchesByRollupStatus env (db r) RollupCommitting 10 = (ids, err) →
  (∀ id, id ∈ ids → Forall results_cover (db_GetBlockTraces env (db r) id).1) →
  (commitInit env r).1 = Return err
  ∧ (err ≠ None ∨ ids = [] → (commitInit env r).2 = r).
Proof.
  intros Hlist Hcover. unfold commitInit. rewrite Hlist.
  destruct err as [e|]; [split; [reflexivity|intros _; reflexivity]|].
  destruct ids as [|id rest]; [split; [reflexivity|intros _; reflexivity]|].
  pose proof (commitInit_loop_returns env (id :: rest) r Hcover) as Hloop.
  destruct (commitInit_loop env (id :: rest) r) as [[[]|reason] r1]; simpl in Hloop;
    [|discriminate].
  split; [reflexivity|]. intros [Hne|Hnil]; [congruence|discriminate].
Qed.

Lemma commitInit_reports_listing_only_witness :
  (commitInit (meml2.collaborators false) (meml2.start cases.malformed fixture.idle)).1
    = Return None
  ∧ processingCommitment
      (commitInit (meml2.collaborators false) (meml2.start cases.malformed fixture.idle)).2
      !! "b4-commit" = Some "b4".
Proof.
  destruct (commitInit_reports_listing_only (meml2.collaborators false)
              (meml2.start cases.malformed fixture.idle) ["b4"] None) as (Hreturn & _).
  - reflexivity.
  - intros id Hin. apply list_elem_of_singleton in Hin. subst id.
    repeat constructor.
  - split; [exact Hreturn|vm_compute; reflexivity].
Defined.

(** X9. When the sender reports that no relay account is available (as
    the error itself or wrapped), [ProcessPendingBatches] returns at
    once: beyond what [committedPack] did, nothing is logged, the store
    is not updated and no entry is registered in the in-flight map. *)
Theorem ProcessPendingBatches_no_available_account {DB Sender : Type}
  (env : Collaborators DB Sender) (r r1 : Layer2Relayer DB Sender) (id : string)
  (ids : list string) (row : option BlockBatch) (data : bytes) (hash : Hash)
  (err : error) (s : Sender) :
  db_GetPendingBatches env (db r) 1 = (id :: ids, None) →
  committedPack env id r = (Return (row, data, None), r1) →
  sender_SendTransaction env (rollupSender r1) (id +:+ "-commit")
    (cfg_RollupContractAddress env) 0 data = ((hash, Some err), s) →
  errors_Is err (sender_ErrNoAvailableAccount env) = true →
  ProcessPendingBatches env r = (Return tt, set_rollupSender s r1)
  ∧ db (ProcessPendingBatches env r).2 = db r
  ∧ processingCommitment (ProcessPendingBatches env r).2 = processingCommitment r
  ∧ logged (ProcessPendingBatches env r).2 = logged r1.
Proof.
  intros Hpending Hpack Hsend Hbusy.
  destruct (committedPack_frame env id r) as (Hdb & _ & Hmap).
  rewrite Hpack in Hdb, Hmap. simpl in Hdb, Hmap.
  assert (Hrun : ProcessPendingBatches env r = (Return tt, set_rollupSender s r1)).
  { unfold ProcessPendingBatches. rewrite Hpending, Hpack, Hsend. simpl.
    rewrite Hbusy. reflexivity. }
  rewrite Hrun. simpl. repeat split; assumption.
Qed.

Lemma ProcessPendingBatches_no_available_account_witness :
  ProcessPendingBatches (meml2.collaborators false) (meml2.start fixture.proved cases.busy)
    = (Return tt, meml2.start fixture.proved cases.busy).
Proof.
  edestruct (ProcessPendingBatches_no_available_account (meml2.collaborators false)
               (meml2.start fixture.proved cases.busy)) as (Hrun & _).
  - reflexivity.
  - vm_compute. reflexivity.
  - vm_compute. reflexivity.
  - reflexivity.
  - rewrite Hrun. reflexivity.
Defined.

(** X10. A run of [ProcessPendingBatches] changes the store and the
    in-flight map in one case only: the first pending batch was packed
    and its transaction sent.  Then it returns normally, the map gains
    [<id>-commit -> id] and the store is what the one status update
    left.  In every other run (nothing pending, a store or packing
    failure, a failed send, a panic) store and map are as before. *)
Theorem ProcessPendingBatches_frame {DB Sender : Type} (env : Collaborators DB Sender)
  (r : Layer2Relayer DB Sender) :
  (db (ProcessPendingBatches env r).2 = db r
   ∧ processingCommitment (ProcessPendingBatches env r).2 = processingCommitment r)
  ∨ ∃ id ids batch data hash s,
      db_GetPendingBatches env (db r) 1 = (id :: ids, None)
      ∧ (committedPack env id r).1 = Return (Some batch, data, None)
      ∧ sender_SendTransaction env (rollupSender r) (id +:+ "-commit")
          (cfg_RollupContractAddress env) 0 data = ((hash, None), s)
      ∧ (ProcessPendingBatches env r).1 = Return tt
      ∧ processingCommitment (ProcessPendingBatches env r).2
        = <[id +:+ "-commit" := id]> (processingCommitment r)
      ∧ db (ProcessPendingBatches env r).2
        = (db_UpdateCommitTxHashAndRollupStatus env (db r) id (Hash_String env hash)
             RollupCommitting).2.
Proof.
  unfold ProcessPendingBatches.
  destruct (db_GetPendingBatches env (db r) 1) as [[|id ids] [e|]] eqn:Hpending;
    try (left; split; reflexivity).
  destruct (committedPack_frame env id r) as (Hdb & Hsender & Hmap).
  destruct (committedPack env id r) as [[[[row data] [e|]]|reason] r1] eqn:Hpack;
    simpl in Hdb, Hsender, Hmap; try (left; split; assumption).
  rewrite Hsender.
  destruct (sender_SendTransaction env (rollupSender r) (id +:+ "-commit")
              (cfg_RollupContractAddress env) 0 data) as [[hash [e|]] s] eqn:Hsend.
  - left. destruct (negb (errors_Is e (sender_ErrNoAvailableAccount env)));
      [destruct row|]; simpl; split; assumption.
  - destruct row as [batch|]; simpl; [|left; split; assumption].
    right. exists id, ids, batch, data, hash, s.
    split; [reflexivity|]. split; [rewrite Hpack; reflexivity|]. split; [exact Hsend|].
    rewrite Hdb.
    destruct (db_UpdateCommitTxHashAndRollupStatus env (db r) id (Hash_String env hash)
                RollupCommitting) as [[e|] d]; simpl; rewrite Hmap;
      repeat split; reflexivity.
Qed.

(** * Further properties of the batch collector *)

(** The loop of [formatProverTask] stops at the first chunk whose proof
    blob does not decode. *)
Lemma formatChunks_first_failure {DB ChunkProof : Type} (bp : BatchProverTask DB ChunkProof)
  (taskID : string) (decoded : list Chunk) (chunk : Chunk) (rest : list Chunk)
  (encodeErr : error) :
  Forall (λ c, (json_Unmarshal bp (Chunk_Proof c)).2 = None) decoded →
  (json_Unmarshal bp (Chunk_Proof chunk)).2 = Some encodeErr →
  ∀ chunkProofs chunkInfos,
    formatChunks bp taskID (decoded ++ chunk :: rest) chunkProofs chunkInfos =
      inr (fmt_Errorf_w
             "Chunk.GetProofsByBatchHash unmarshal proof error: %w, batch hash: %v, chunk hash: %v"
             [taskID; Chunk_Hash chunk] encodeErr).
Proof.
  intros Hdecoded Hchunk.
  induction Hdecoded as [|c decoded Hc _ IH]; intros chunkProofs chunkInfos; simpl.
  - destruct (json_Unmarshal bp (Chunk_Proof chunk)) as [proof [e|]]; simpl in Hchunk;
      [|discriminate].
    inversion Hchunk; subst. reflexivity.
  - destruct (json_Unmarshal bp (Chunk_Proof c)) as [proof [e|]]; simpl in Hc;
      [discriminate|].
    apply IH.
Qed.

(** X11. [formatProverTask] fails fast on the first chunk, in stored
    order, whose proof blob does not decode: it returns no payload and
    the unmarshal error wrapped with the batch hash and the hash of that
    chunk, whatever the chunks after it hold; nothing is marshalled. *)
Theorem formatProverTask_first_undecodable {DB ChunkProof : Type}
  (bp : BatchProverTask DB ChunkProof) (d : DB) (taskID : string)
  (decoded : list Chunk) (chunk : Chunk) (rest : list Chunk) (encodeErr : error) :
  chunkOrm_GetChunksByBatchHash bp d taskID = (decoded ++ chunk :: rest, None) →
  Forall (λ c, (json_Unmarshal bp (Chunk_Proof c)).2 = None) decoded →
  (json_Unmarshal bp (Chunk_Proof chunk)).2 = Some encodeErr →
  formatProverTask bp d taskID =
    (None,
     Some (fmt_Errorf_w
             "Chunk.GetProofsByBatchHash unmarshal proof error: %w, batch hash: %v, chunk hash: %v"
             [taskID; Chunk_Hash chunk] encodeErr)).
Proof.
  intros Hget Hdecoded Hchunk. unfold formatProverTask. rewrite Hget.
  rewrite (formatChunks_first_failure bp taskID decoded chunk rest encodeErr Hdecoded Hchunk).
  reflexivity.
Qed.

Lemma formatProverTask_first_undecodable_witness :
  formatProverTask (mem.collector mem.no_faults 3 1000) cases.mixed "0xb4" =
    (None,
     Some (fmt_Errorf_w
             "Chunk.GetProofsByBatchHash unmarshal proof error: %w, batch hash: %v, chunk hash: %v"
             ["0xb4"; "0xd2"] (errors_New "unexpected end of JSON input"))).
Proof.
  apply (formatProverTask_first_undecodable (mem.collector mem.no_faults 3 1000)
           cases.mixed "0xb4"
           [fixture.chunk "0xd1" "0x01" "0x02" "0x03" "{P1}" "0xb4"]
           (fixture.chunk "0xd2" "0x02" "0x04" "0x05" EmptyString "0xb4")
           [fixture.chunk "0xd3" "0x04" "0x06" "0x07" EmptyString "0xb4"]).
  - reflexivity.
  - repeat constructor.
  - reflexivity.
Defined.

(** X12. [formatProverTask] returns either a payload or an error, never
    both and never neither; a payload it returns carries the task id it
    was asked for and the batch proof type. *)
Theorem formatProverTask_payload_or_error {DB ChunkProof : Type}
  (bp : BatchProverTask DB ChunkProof) (d : DB) (taskID : string) :
  match formatProverTask bp d taskID with
  | (Some taskMsg, None) =>
      Schema_TaskID taskMsg = taskID ∧ Schema_ProofType taskMsg = ProofTypeBatch
  | (None, Some _) => True
  | _ => False
  end.
Proof.
  unfold formatProverTask.
  destruct (chunkOrm_GetChunksByBatchHash bp d taskID) as [chunks [e|]]; [exact I|].
  destruct (formatChunks bp taskID chunks [] []) as [[chunkProofs chunkInfos]|e];
    [|exact I].
  destruct (json_Marshal bp _) as [body [e|]]; [exact I|].
  split; reflexivity.
Qed.

Lemma errors_Is_refl (err : error) : errors_Is err err = true.
Proof. destruct err; simpl; rewrite decide_True by reflexivity; reflexivity. Qed.

Lemma errors_Is_wrap (format : string) (operands : list string) (cause target : error) :
  errors_Is cause target = true →
  errors_Is (fmt_Errorf_w format operands cause) target = true.
Proof. intros Hcause. simpl. destruct (decide _); [reflexivity|exact Hcause]. Qed.

(** An error of the loop of [formatProverTask] wraps the unmarshal error
    of one of the chunks. *)
Lemma formatChunks_error {DB ChunkProof : Type} (bp : BatchProverTask DB ChunkProof)
  (taskID : string) (chunks : list Chunk) :
  ∀ chunkProofs chunkInfos err,
    formatChunks bp taskID chunks chunkProofs chunkInfos = inr err →
    ∃ chunk cause,
      chunk ∈ chunks
      ∧ (json_Unmarshal bp (Chunk_Proof chunk)).2 = Some cause
      ∧ errors_Is err cause = true.
Proof.
  induction chunks as [|c rest IH]; intros chunkProofs chunkInfos err Hrun; simpl in Hrun.
  - discriminate.
  - destruct (json_Unmarshal bp (Chunk_Proof c)) as [proof [e|]] eqn:Hc.
    + inversion Hrun; subst. exists c, e. split; [left|]. rewrite Hc.
      split; [reflexivity|]. apply errors_Is_wrap, errors_Is_refl.
    + destruct (IH _ _ _ Hrun) as (chunk & cause & Hin & Hcause & His).
      exists chunk, cause. split; [right; exact Hin|]. split; assumption.
Qed.

(** X13. [formatProverTask] invents no error: every error it returns
    wraps, so that [errors.Is] finds it, an error of one of its
    collaborators: the read of the chunks, the decoding of the proof of
    one of the chunks read, or the marshalling of the task detail. *)
Theorem formatProverTask_error_cause {DB ChunkProof : Type}
  (bp : BatchProverTask DB ChunkProof) (d : DB) (taskID : string) (err : error) :
  (formatProverTask bp d taskID).2 = Some err →
  ∃ cause,
    errors_Is err cause = true
    ∧ ((chunkOrm_GetChunksByBatchHash bp d taskID).2 = Some cause
       ∨ (∃ chunk, chunk ∈ (chunkOrm_GetChunksByBatchHash bp d taskID).1
                   ∧ (json_Unmarshal bp (Chunk_Proof chunk)).2 = Some cause)
       ∨ ∃ taskDetail, (json_Marshal bp taskDetail).2 = Some cause).
Proof.
  unfold formatProverTask.
  destruct (chunkOrm_GetChunksByBatchHash bp d taskID) as [chunks [e|]]; simpl.
  { intros Herr. inversion Herr; subst. exists e.
    split; [apply errors_Is_wrap, errors_Is_refl|left; reflexivity]. }
  destruct (formatChunks bp taskID chunks [] []) as [[chunkProofs chunkInfos]|e] eqn:Hloop.
  - destruct (json_Marshal bp {| ChunkInfos := chunkInfos; ChunkProofs := chunkProofs |})
      as [body [e|]] eqn:Hmarshal; simpl; [|discriminate].
    intros Herr. inversion Herr; subst. exists e.
    split; [apply errors_Is_wrap, errors_Is_refl|].
    right. right. eexists. rewrite Hmarshal. reflexivity.
  - simpl. intros Herr. inversion Herr; subst.
    destruct (formatChunks_error bp taskID chunks _ _ _ Hloop)
      as (chunk & cause & Hin & Hcause & His).
    exists cause. split; [exact His|]. right. left. exists chunk. split; assumption.
Qed.

Lemma formatProverTask_error_cause_witness :
  ∃ cause,
    errors_Is
      (fmt_Errorf_w
         "Chunk.GetProofsByBatchHash unmarshal proof error: %w, batch hash: %v, chunk hash: %v"
         ["0xb2"; "0xc3"] (errors_New "unexpected end of JSON input")) cause = true
    ∧ ((mem.GetChunksByBatchHash fixture.corrupt "0xb2").2 = Some cause
       ∨ (∃ chunk, chunk ∈ (mem.GetChunksByBatchHash fixture.corrupt "0xb2").1
                   ∧ (mem.json_Unmarshal (Chunk_Proof chunk)).2 = Some cause)
       ∨ ∃ taskDetail, (mem.json_Marshal taskDetail).2 = Some cause).
Proof.
  apply (formatProverTask_error_cause (mem.collector mem.no_faults 3 1000)
           fixture.corrupt "0xb2").
  reflexivity.
Defined.

(** X14. Unless the store answers the request for one unassigned batch
    with exactly one row and no error, [Collect] returns without touching
    anything: the connection is as it was, no payload is returned, and
    the error is nil exactly when the store had nothing to assign. *)
Theorem Collect_returns_untouched {DB ChunkProof : Type}
  (bp : BatchProverTask DB ChunkProof) (ctx : gin_Context) (c : Conn DB)
  (batchTasks : list Batch) (storeErr : option error) :
  batchOrm_GetUnassignedBatches bp (committed c) 1 = (batchTasks, storeErr) →
  storeErr ≠ None ∨ length batchTasks ≠ 1%nat →
  ∃ err : option error,
    Collect bp ctx c = (Return (None, err), c)
    ∧ (err = None ↔ storeErr = None ∧ batchTasks = []).
Proof.
  intros Hget Hnot. unfold Collect. rewrite Hget.
  destruct storeErr as [e|].
  { eexists. split; [reflexivity|]. split; [discriminate|intros [? _]; discriminate]. }
  destruct batchTasks as [|b [|b' rest]].
  - exists None. split; [reflexivity|]. split; intros; [split|]; reflexivity.
  - destruct Hnot as [Hne|Hne]; [congruence|simpl in Hne; lia].
  - eexists. split; [reflexivity|]. split; [discriminate|intros [_ ?]; discriminate].
Qed.

Lemma Collect_returns_untouched_witness :
  Collect (mem.collector mem.no_faults 3 1000) (mem.request "0xkey" "alice")
    (mem.connect cases.nothing)
  = (Return (None, None), mem.connect cases.nothing).
Proof.
  destruct (Collect_returns_untouched (mem.collector mem.no_faults 3 1000)
              (mem.request "0xkey" "alice") (mem.connect cases.nothing) [] None)
    as (err & Hrun & Herr).
  - reflexivity.
  - right. simpl. lia.
  - rewrite Hrun. destruct Herr as (_ & Hnil). rewrite Hnil; [reflexivity|].
    split; reflexivity.
Defined.

(** The transaction of [Collect] closes itself: whatever happens in it,
    no private view is left open, and the observable states grow by at
    most the committed one. *)
Lemma assignment_transaction_closed {DB ChunkProof : Type}
  (bp : BatchProverTask DB ChunkProof) (batchTask : Batch) (publicKey proverName : any)
  (c : Conn DB) :
  pending c = None →
  pending (Transaction bp (assignment bp batchTask publicKey proverName) c).2 = None.
Proof.
  intros Hclosed. unfold Transaction, assignment, exec; simpl.
  destruct (db_Begin bp (committed c)) as [e|]; simpl; [exact Hclosed|].
  destruct (batchOrm_UpdateProvingStatus bp (Batch_Hash batchTask) ProvingTaskAssigned
              (committed c)) as [[e|] d1]; simpl; [reflexivity|].
  destruct publicKey as [pk|n]; simpl; [|reflexivity].
  destruct proverName as [pn|n]; simpl; [|reflexivity].
  match goal with
  | |- context [proverTaskOrm_SetProverTask bp ?t d1] =>
      destruct (proverTaskOrm_SetProverTask bp t d1) as [[e|] d2]; simpl
  end; [reflexivity|].
  destruct (db_Commit bp d2) as [e|]; reflexivity.
Qed.

(** X15. [Collect] never leaves a transaction open, and it lets other
    connections observe at most two new committed states (the attempt
    guard's and the committed assignment), added in front of those seen
    before.  It returns a payload only with a nil error. *)
Theorem Collect_closes_transaction {DB ChunkProof : Type}
  (bp : BatchProverTask DB ChunkProof) (ctx : gin_Context) (c : Conn DB) :
  pending c = None →
  pending (Collect bp ctx c).2 = None
  ∧ (∃ news, seen (Collect bp ctx c).2 = news ++ seen c ∧ (length news ≤ 2)%nat)
  ∧ ∀ taskMsg err, (Collect bp ctx c).1 = Return (Some taskMsg, err) → err = None.
Proof.
  intros Hclosed. unfold Collect.
  destruct (batchOrm_GetUnassignedBatches bp (committed c) 1) as [batchTasks [e|]].
  { split; [exact Hclosed|]. split; [exists []; split; [reflexivity|simpl; lia]|].
    intros taskMsg err Hrun. discriminate. }
  destruct batchTasks as [|batchTask [|b' rest]]; simpl;
    try (split; [exact Hclosed|];
         split; [exists []; split; [reflexivity|simpl; lia]|];
         intros taskMsg err Hrun; discriminate).
  destruct (checkAttemptsExceeded bp (Batch_Hash batchTask) ProofTypeBatch (committed c))
    as [eligible d].
  assert (Hguard : ∀ result : option ProverTaskSchema * option error,
            result.1 = None →
            pending (Return result,
                     {| committed := d; pending := pending c; seen := d :: seen c |}).2 = None
            ∧ (∃ news, seen (Return result,
                             {| committed := d; pending := pending c;
                                seen := d :: seen c |}).2 = news ++ seen c
                       ∧ (length news ≤ 2)%nat)
            ∧ ∀ taskMsg err,
                (Return result,
                 {| committed := d; pending := pending c; seen := d :: seen c |}).1
                = Return (Some taskMsg, err) → err = None).
  { intros [payload err'] Hpayload. simpl in *. subst payload.
    split; [exact Hclosed|]. split; [exists [d]; split; [reflexivity|simpl; lia]|].
    intros taskMsg err Hrun. discriminate. }
  destruct eligible; simpl; [|apply Hguard; reflexivity].
  destruct (ctx_Get ctx (coordinatorType_PublicKey bp)) as [publicKey|];
    [|apply Hguard; reflexivity].
  destruct (ctx_Get ctx (coordinatorType_ProverName bp)) as [proverName|];
    [|apply Hguard; reflexivity].
  pose proof (assignment_transaction bp batchTask publicKey proverName
                {| committed := d; pending := pending c; seen := d :: seen c |}) as Htx.
  pose proof (assignment_transaction_closed bp batchTask publicKey proverName
                {| committed := d; pending := pending c; seen := d :: seen c |} Hclosed)
    as Hpending.
  destruct (Transaction bp (assignment bp batchTask publicKey proverName)
              {| committed := d; pending := pending c; seen := d :: seen c |})
    as [r c2].
  simpl in Htx, Hpending.
  assert (Hseen : ∃ news, seen c2 = news ++ seen c ∧ (length news ≤ 2)%nat).
  { destruct Htx as [(_ & _ & Hs)|(pk & pn & d1 & d2 & _ & _ & _ & _ & _ & _ & _ & Hc2)].
    - exists [d]. split; [exact Hs|simpl; lia].
    - subst c2. exists [d2; d]. split; [reflexivity|simpl; lia]. }
  destruct r as [[transErr|]|reason]; simpl.
  - split; [exact Hpending|]. split; [exact Hseen|]. intros taskMsg err Hrun. discriminate.
  - destruct (formatProverTask bp (committed c2) (Batch_Hash batchTask)) as [taskMsg' [e|]];
      simpl; (split; [exact Hpending|]); (split; [exact Hseen|]);
      intros taskMsg err Hrun; inversion Hrun; reflexivity.
  - split; [exact Hpending|]. split; [exact Hseen|]. intros taskMsg err Hrun. discriminate.
Qed.

Lemma Collect_closes_transaction_witness :
  pending (Collect (mem.collector mem.no_faults 3 1000) (mem.request "0xkey" "alice")
             (mem.connect fixture.waiting)).2 = None
  ∧ (∃ news,
       seen (Collect (mem.collector mem.no_faults 3 1000) (mem.request "0xkey" "alice")
               (mem.connect fixture.waiting)).2 = news ++ []
       ∧ (length news ≤ 2)%nat)
  ∧ ∀ taskMsg err,
      (Collect (mem.collector mem.no_faults 3 1000) (mem.request "0xkey" "alice")
         (mem.connect fixture.waiting)).1 = Return (Some taskMsg, err) → err = None.
Proof.
  apply (Collect_closes_transaction (mem.collector mem.no_faults 3 1000)
           (mem.request "0xkey" "alice") (mem.connect fixture.waiting)).
  reflexivity.
Defined.

(** X16. When the request context holds the public key or the prover
    name as something other than a string, the type assertion inside the
    transaction panics after the status update has been made in it.
    [Collect] panics, and the transaction is rolled back: the committed
    store is the one the attempt guard left, the batch is not Assigned
    by this run and no assignment record is inserted. *)
Theorem Collect_identity_not_string {DB ChunkProof : Type}
  (bp : BatchProverTask DB ChunkProof) (ctx : gin_Context) (c : Conn DB)
  (batchTask : Batch) (publicKey proverName : any) (d d1 : DB) :
  batchOrm_GetUnassignedBatches bp (committed c) 1 = ([batchTask], None) →
  checkAttemptsExceeded bp (Batch_Hash batchTask) ProofTypeBatch (committed c) = (true, d) →
  ctx_Get ctx (coordinatorType_PublicKey bp) = Some publicKey →
  ctx_Get ctx (coordinatorType_ProverName bp) = Some proverName →
  (∃ n, publicKey = any_int n) ∨ (∃ n, proverName = any_int n) →
  db_Begin bp d = None →
  batchOrm_UpdateProvingStatus bp (Batch_Hash batchTask) ProvingTaskAssigned d = (None, d1) →
  Collect bp ctx c =
    (Panics "interface conversion: interface {} is not string",
     {| committed := d; pending := None; seen := d :: seen c |}).
Proof.
  intros Hget Hguard Hpk Hpn Hodd Hbegin Hupdate.
  unfold Collect. rewrite Hget. simpl. rewrite Hguard. simpl. rewrite Hpk, Hpn.
  unfold Transaction, assignment, exec. simpl. rewrite Hbegin, Hupdate. simpl.
  destruct Hodd as [(n & ->)|(n & ->)]; simpl; [reflexivity|].
  destruct publicKey; reflexivity.
Qed.

Lemma Collect_identity_not_string_witness :
  Collect (mem.collector mem.no_faults 3 1000) cases.odd_request
    (mem.connect fixture.waiting)
  = (Panics "interface conversion: interface {} is not string",
     {| committed := fixture.waiting; pending := None; seen := [fixture.waiting] |}).
Proof.
  eapply (Collect_identity_not_string (mem.collector mem.no_faults 3 1000)
            cases.odd_request (mem.connect fixture.waiting)
            (fixture.unassigned 1 "0xb1") (any_int 7) (any_string "alice")).
  - reflexivity.
  - reflexivity.
  - reflexivity.
  - reflexivity.
  - left. exists 7. reflexivity.
  - reflexivity.
  - reflexivity.
Defined.

(** X17. When the request context lacks the public key, or has it but
    lacks the prover name, [Collect] returns the matching error after the
    attempt guard has run and before any transaction is begun: the
    committed store is the one the guard left.  The public key is looked
    up first. *)
Theorem Collect_identity_missing {DB ChunkProof : Type}
  (bp : BatchProverTask DB ChunkProof) (ctx : gin_Context) (c : Conn DB)
  (batchTask : Batch) (d : DB) :
  batchOrm_GetUnassignedBatches bp (committed c) 1 = ([batchTask], None) →
  checkAttemptsExceeded bp (Batch_Hash batchTask) ProofTypeBatch (committed c) = (true, d) →
  ctx_Get ctx (coordinatorType_PublicKey bp) = None
  ∨ ctx_Get ctx (coordinatorType_ProverName bp) = None →
  Collect bp ctx c =
    (Return (None,
             Some (fmt_Errorf
                     match ctx_Get ctx (coordinatorType_PublicKey bp) with
                     | Some _ => "get prover name from contex failed"
                     | None => "get public key from contex failed"
                     end [])),
     {| committed := d; pending := pending c; seen := d :: seen c |}).
Proof.
  intros Hget Hguard Hmissing.
  unfold Collect. rewrite Hget. simpl. rewrite Hguard. simpl.
  destruct (ctx_Get ctx (coordinatorType_PublicKey bp)) as [publicKey|]; [|reflexivity].
  destruct Hmissing as [Hpk|Hpn]; [discriminate|]. rewrite Hpn. reflexivity.
Qed.

Lemma Collect_identity_missing_witness :
  Collect (mem.collector mem.no_faults 3 1000) cases.nameless_request
    (mem.connect fixture.waiting)
  = (Return (None, Some (fmt_Errorf "get prover name from contex failed" [])),
     {| committed := fixture.waiting; pending := None; seen := [fixture.waiting] |}).
Proof.
  apply (Collect_identity_missing (mem.collector mem.no_faults 3 1000)
           cases.nameless_request (mem.connect fixture.waiting)
           (fixture.unassigned 1 "0xb1") fixture.waiting).
  - reflexivity.
  - reflexivity.
  - right. reflexivity.
Defined.

(** X18. When the batch is selected, eligible, assigned by a committed
    transaction and its payload is formatted, [Collect] returns exactly
    the payload [formatProverTask] builds from the committed store for
    the hash of that batch, with a nil error; the payload carries that
    hash as its task id. *)
Theorem Collect_returns_payload {DB ChunkProof : Type}
  (bp : BatchProverTask DB ChunkProof) (ctx : gin_Context) (c : Conn DB)
  (batchTask : Batch) (publicKey proverName : string) (d d1 d2 : DB)
  (taskMsg : option ProverTaskSchema) :
  batchOrm_GetUnassignedBatches bp (committed c) 1 = ([batchTask], None) →
  checkAttemptsExceeded bp (Batch_Hash batchTask) ProofTypeBatch (committed c) = (true, d) →
  ctx_Get ctx (coordinatorType_PublicKey bp) = Some (any_string publicKey) →
  ctx_Get ctx (coordinatorType_ProverName bp) = Some (any_string proverName) →
  db_Begin bp d = None →
  batchOrm_UpdateProvingStatus bp (Batch_Hash batchTask) ProvingTaskAssigned d = (None, d1) →
  proverTaskOrm_SetProverTask bp
    {| TaskID := Batch_Hash batchTask;
       ProverPublicKey := publicKey;
       TaskType := ProofTypeBatch;
       ProverName := proverName;
       ProvingStatus_ := ProverAssigned;
       FailureType := ProverTaskFailureTypeUndefined;
       AssignedAt := utils_NowUTC bp |} d1 = (None, d2) →
  db_Commit bp d2 = None →
  formatProverTask bp d2 (Batch_Hash batchTask) = (taskMsg, None) →
  Collect bp ctx c =
    (Return (taskMsg, None),
     {| committed := d2; pending := None; seen := d2 :: d :: seen c |})
  ∧ ∃ payload,
      taskMsg = Some payload
      ∧ Schema_TaskID payload = Batch_Hash batchTask
      ∧ Schema_ProofType payload = ProofTypeBatch.
Proof.
  intros Hget Hguard Hpk Hpn Hbegin Hupdate Hinsert Hcommit Hformat. split.
  - unfold Collect. rewrite Hget. simpl. rewrite Hguard. simpl. rewrite Hpk, Hpn.
    unfold Transaction, assignment, exec. simpl.
    rewrite Hbegin, Hupdate. simpl. rewrite Hinsert. simpl. rewrite Hcommit. simpl.
    rewrite Hformat. reflexivity.
  - revert Hformat. unfold formatProverTask.
    destruct (chunkOrm_GetChunksByBatchHash bp d2 (Batch_Hash batchTask))
      as [chunks [e|]]; [discriminate|].
    destruct (formatChunks bp (Batch_Hash batchTask) chunks [] [])
      as [[chunkProofs chunkInfos]|e]; [|discriminate].
    destruct (json_Marshal bp _) as [body [e|]]; [discriminate|].
    intros Hformat. inversion Hformat; subst. eexists. repeat split; reflexivity.
Qed.

Lemma Collect_returns_payload_witness :
  ∃ payload d2,
    Collect (mem.collector mem.no_faults 3 1000) (mem.request "0xkey" "alice")
      (mem.connect fixture.waiting)
    = (Return (Some payload, None),
       {| committed := d2; pending := None; seen := [d2; fixture.waiting] |})
    ∧ Schema_TaskID payload = "0xb1".
Proof.
  edestruct (Collect_returns_payload (mem.collector mem.no_faults 3 1000)
               (mem.request "0xkey" "alice") (mem.connect fixture.waiting)
               (fixture.unassigned 1 "0xb1") "0xkey" "alice" fixture.waiting)
    as (Hrun & payload & Hpayload & Hid & _).
  - reflexivity.
  - reflexivity.
  - reflexivity.
  - reflexivity.
  - reflexivity.
  - reflexivity.
  - reflexivity.
  - reflexivity.
  - vm_compute. reflexivity.
  - inversion Hpayload; subst. eexists. eexists. split; [exact Hrun|exact Hid].
Defined.

(** * Recovery registers what it resumes *)

Lemma list_ascii_of_append (s t : string) :
  list_ascii_of_string (s +:+ t) = list_ascii_of_string s ++ list_ascii_of_string t.
Proof.
  induction s as [|a s IH]; [reflexivity|].
  change (String a s +:+ t) with (String a (s +:+ t)). simpl. rewrite IH. reflexivity.
Qed.

(** Distinct batch ids have distinct commit transaction ids. *)
Lemma commit_txID_inj (id id' : string) :
  id +:+ "-commit" = id' +:+ "-commit" → id = id'.
Proof.
  intros Heq. apply (f_equal list_ascii_of_string) in Heq.
  rewrite !list_ascii_of_append in Heq. apply app_inv_tail in Heq.
  rewrite <- (string_of_list_ascii_of_string id), <- (string_of_list_ascii_of_string id').
  rewrite Heq. reflexivity.
Qed.

(** The calldata [committedPack] yields is decided by the store. *)
Lemma committedPack_store_only {DB Sender : Type} (env : Collaborators DB Sender)
  (id : string) (r r' : Layer2Relayer DB Sender) :
  db r' = db r → calldata (committedPack env id r') = calldata (committedPack env id r).
Proof.
  intros Hdb. unfold calldata, committedPack. rewrite Hdb.
  destruct (db_GetBlockBatches env (db r) id) as [[|batch others] [e|]]; try reflexivity.
  destruct (db_GetBlockTraces env (db r) id) as [[|trace rest] [e|]]; try reflexivity.
  destruct (layer2BatchOf env batch (trace :: rest)) as [layer2Batch|reason];
    [|reflexivity].
  destruct (RollupMetaABI_Pack env "commitBatch" layer2Batch) as [data [e|]]; reflexivity.
Qed.

Lemma commitInit_loop_registers {DB Sender : Type} (env : Collaborators DB Sender)
  (id : string) (txStr : NullString) (data : bytes) (ids : list string) :
  (∀ s, (sender_LoadOrSendTx env s (common_HexToHash env (NullString_String txStr))
           (id +:+ "-commit") (cfg_RollupContractAddress env) 0 data).1 = None) →
  ∀ r : Layer2Relayer DB Sender,
    (∀ id', id' ∈ ids → Forall results_cover (db_GetBlockTraces env (db r) id').1) →
    db_GetCommitTxHash env (db r) id = (txStr, None) →
    calldata (committedPack env id r) = Return (data, None) →
    id ∈ ids ∨ processingCommitment r !! (id +:+ "-commit") = Some id →
    processingCommitment (commitInit_loop env ids r).2 !! (id +:+ "-commit") = Some id.
Proof.
  intros Hresume.
  induction ids as [|id0 rest IH]; intros r Hcover Hhash Hdata Hwhere.
  { destruct Hwhere as [Hin|Hdone]; [inversion Hin|exact Hdone]. }
  assert (Hnext : ∀ r2 : Layer2Relayer DB Sender,
            db r2 = db r →
            id ∈ rest ∨ processingCommitment r2 !! (id +:+ "-commit") = Some id →
            processingCommitment (commitInit_loop env rest r2).2 !! (id +:+ "-commit")
            = Some id).
  { intros r2 Hdb Hwhere2. apply IH.
    - intros id' Hin. rewrite Hdb. apply Hcover. right. exact Hin.
    - rewrite Hdb. exact Hhash.
    - rewrite (committedPack_store_only env id r r2 Hdb). exact Hdata.
    - exact Hwhere2. }
  assert (Hother : id0 ≠ id →
            ∀ r2 : Layer2Relayer DB Sender,
              processingCommitment r2 = processingCommitment r
              ∨ processingCommitment r2
                = <[id0 +:+ "-commit" := id0]> (processingCommitment r) →
              id ∈ rest ∨ processingCommitment r2 !! (id +:+ "-commit") = Some id).
  { intros Hne r2 Hmap. destruct Hwhere as [Hin|Hdone].
    - left. apply elem_of_cons in Hin. destruct Hin as [Heq|Hin]; [congruence|exact Hin].
    - right. destruct Hmap as [Hmap|Hmap]; rewrite Hmap; [exact Hdone|].
      rewrite lookup_insert_ne; [exact Hdone|].
      intros Heq. apply commit_txID_inj in Heq. congruence. }
  destruct (committedPack_frame env id0 r) as (Hdb1 & _ & Hmap1).
  destruct (committedPack_returns env id0 r) as (result & Hresult);
    [apply Hcover; left|].
  simpl. destruct (decide (id0 = id)) as [->|Hne].
  - rewrite Hhash. unfold calldata in Hdata.
    destruct (committedPack env id r) as [packed r1]. simpl in *. subst packed.
    destruct result as [[row data'] [e|]]; [discriminate|].
    inversion Hdata; subst data'.
    pose proof (Hresume (rollupSender r1)) as Hok.
    destruct (sender_LoadOrSendTx env (rollupSender r1)
                (common_HexToHash env (NullString_String txStr)) (id +:+ "-commit")
                (cfg_RollupContractAddress env) 0 data) as [err s]. simpl in Hok. subst err.
    apply Hnext; [exact Hdb1|]. right. simpl. apply lookup_insert_eq.
  - destruct (db_GetCommitTxHash env (db r) id0) as [txStr0 [e|]].
    { apply Hnext; [reflexivity|]. apply (Hother Hne). left. reflexivity. }
    destruct (committedPack env id0 r) as [packed r1]. simpl in *. subst packed.
    destruct result as [[row data0] [e|]].
    + apply Hnext; [exact Hdb1|]. apply (Hother Hne). left. exact Hmap1.
    + destruct (sender_LoadOrSendTx env (rollupSender r1)
                  (common_HexToHash env (NullString_String txStr0)) (id0 +:+ "-commit")
                  (cfg_RollupContractAddress env) 0 data0) as [[e|] s].
      * apply Hnext; [exact Hdb1|]. apply (Hother Hne). left. exact Hmap1.
      * apply Hnext; [exact Hdb1|]. apply (Hother Hne). right. simpl. rewrite Hmap1.
        reflexivity.
Qed.

(** X19. Recovery rebuilds the in-flight entry of every batch it
    resumes.  For a listed Committing batch whose commit hash is read,
    whose calldata is packed and whose resume the sender accepts,
    [commitInit] leaves [<id>-commit -> id] in the in-flight map, whatever
    happens to the other listed batches (their traces being well formed). *)
Theorem commitInit_registers_resumed {DB Sender : Type} (env : Collaborators DB Sender)
  (r : Layer2Relayer DB Sender) (ids : list string) (id : string) (txStr : NullString)
  (data : bytes) :
  db_GetBatchesByRollupStatus env (db r) RollupCommitting 10 = (ids, None) →
  id ∈ ids →
  (∀ id', id' ∈ ids → Forall results_cover (db_GetBlockTraces env (db r) id').1) →
  db_GetCommitTxHash env (db r) id = (txStr, None) →
  calldata (committedPack env id r) = Return (data, None) →
  (∀ s, (sender_LoadOrSendTx env s (common_HexToHash env (NullString_String txStr))
           (id +:+ "-commit") (cfg_RollupContractAddress env) 0 data).1 = None) →
  processingCommitment (commitInit env r).2 !! (id +:+ "-commit") = Some id.
Proof.
  intros Hlist Hin Hcover Hhash Hdata Hresume.
  pose proof (commitInit_loop_registers env id txStr data ids Hresume r Hcover Hhash Hdata
                (or_introl Hin)) as Hloop.
  unfold commitInit. rewrite Hlist.
  destruct ids as [|id0 rest]; [inversion Hin|].
  destruct (commitInit_loop env (id0 :: rest) r) as [[[]|reason] r1]; exact Hloop.
Qed.

Lemma commitInit_registers_resumed_witness :
  processingCommitment
    (commitInit (meml2.collaborators false) (meml2.start cases.malformed fixture.idle)).2
    !! "b4-commit" = Some "b4".
Proof.
  eapply (commitInit_registers_resumed (meml2.collaborators false)
            (meml2.start cases.malformed fixture.idle) ["b4"] "b4").
  - reflexivity.
  - left.
  - intros id Hin. apply list_elem_of_singleton in Hin. subst id. repeat constructor.
  - reflexivity.
  - vm_compute. reflexivity.
  - intros s. simpl. unfold meml2.LoadOrSendTx. destruct (meml2.knows s _); reflexivity.
Defined.

(** * Failures of the send and of the transaction *)

(** X20. When [SendTransaction] fails with an error that is not the
    sender's no-available-account error, and [committedPack] had returned
    the batch row, [ProcessPendingBatches] logs the failure once with the
    batch id and returns: the store is not updated and nothing is
    registered, so the batch stays pending for the next run. *)
Theorem ProcessPendingBatches_send_failure {DB Sender : Type}
  (env : Collaborators DB Sender) (r r1 : Layer2Relayer DB Sender) (id : string)
  (ids : list string) (batch : BlockBatch) (data : bytes) (hash : Hash)
  (err : error) (s : Sender) :
  db_GetPendingBatches env (db r) 1 = (id :: ids, None) →
  committedPack env id r = (Return (Some batch, data, None), r1) →
  sender_SendTransaction env (rollupSender r1) (id +:+ "-commit")
    (cfg_RollupContractAddress env) 0 data = ((hash, Some err), s) →
  errors_Is err (sender_ErrNoAvailableAccount env) = false →
  ProcessPendingBatches env r =
    (Return tt,
     log (log_Error "Failed to send commitBatch tx to layer1 " id (Some err))
       (set_rollupSender s r1))
  ∧ db (ProcessPendingBatches env r).2 = db r
  ∧ processingCommitment (ProcessPendingBatches env r).2 = processingCommitment r.
Proof.
  intros Hpending Hpack Hsend Hother.
  destruct (committedPack_frame env id r) as (Hdb & _ & Hmap).
  rewrite Hpack in Hdb, Hmap. simpl in Hdb, Hmap.
  assert (Hrun : ProcessPendingBatches env r =
                 (Return tt,
                  log (log_Error "Failed to send commitBatch tx to layer1 " id (Some err))
                    (set_rollupSender s r1))).
  { unfold ProcessPendingBatches. rewrite Hpending, Hpack, Hsend. simpl.
    rewrite Hother. reflexivity. }
  rewrite Hrun. simpl. repeat split; assumption.
Qed.

Lemma ProcessPendingBatches_send_failure_witness :
  let known :=
    {| meml2.account_free := true;
       meml2.known_txs :=
         [{| meml2.known_ID := "b1-commit"; meml2.known_hash := 42;
             meml2.known_target := 3735928559; meml2.known_value := 0;
             meml2.known_data := [] |}] |} in
  ProcessPendingBatches (meml2.collaborators false) (meml2.start fixture.proved known)
  = (Return tt,
     log (log_Error "Failed to send commitBatch tx to layer1 " "b1"
            (Some (fmt_Errorf "has the repeat tx ID, ID: %s" ["b1-commit"])))
       (meml2.start fixture.proved known)).
Proof.
  intros known.
  edestruct (ProcessPendingBatches_send_failure (meml2.collaborators false)
               (meml2.start fixture.proved known)) as (Hrun & _).
  - reflexivity.
  - vm_compute. reflexivity.
  - vm_compute. reflexivity.
  - reflexivity.
  - rewrite Hrun. reflexivity.
Defined.

(** X21. When the transaction of [Collect] fails, [Collect] returns the
    transaction's error with no payload and the committed store is the
    one the attempt guard left.  The error is the store's error of the
    BEGIN or of the COMMIT as it is, or the error of the status update
    or of the insertion wrapped with the hash of the batch; the
    insertion is attempted only after the status update succeeded. *)
Theorem Collect_transaction_failure {DB ChunkProof : Type}
  (bp : BatchProverTask DB ChunkProof) (ctx : gin_Context) (c : Conn DB)
  (batchTask : Batch) (publicKey proverName : string) (d : DB) (transErr : error) :
  batchOrm_GetUnassignedBatches bp (committed c) 1 = ([batchTask], None) →
  checkAttemptsExceeded bp (Batch_Hash batchTask) ProofTypeBatch (committed c) = (true, d) →
  ctx_Get ctx (coordinatorType_PublicKey bp) = Some (any_string publicKey) →
  ctx_Get ctx (coordinatorType_ProverName bp) = Some (any_string proverName) →
  (Transaction bp (assignment bp batchTask (any_string publicKey) (any_string proverName))
     {| committed := d; pending := pending c; seen := d :: seen c |}).1
  = Return (Some transErr) →
  (Collect bp ctx c).1 = Return (None, Some transErr)
  ∧ committed (Collect bp ctx c).2 = d
  ∧ seen (Collect bp ctx c).2 = d :: seen c
  ∧ (db_Begin bp d = Some transErr
     ∨ (∃ e d1,
          batchOrm_UpdateProvingStatus bp (Batch_Hash batchTask) ProvingTaskAssigned d
          = (Some e, d1)
          ∧ transErr = fmt_Errorf_w "failed to update task status, id:%s, error:%w"
                         [Batch_Hash batchTask] e)
     ∨ (∃ e d1 d2,
          batchOrm_UpdateProvingStatus bp (Batch_Hash batchTask) ProvingTaskAssigned d
          = (None, d1)
          ∧ proverTaskOrm_SetProverTask bp
              {| TaskID := Batch_Hash batchTask;
                 ProverPublicKey := publicKey;
                 TaskType := ProofTypeBatch;
                 ProverName := proverName;
                 ProvingStatus_ := ProverAssigned;
                 FailureType := ProverTaskFailureTypeUndefined;
                 AssignedAt := utils_NowUTC bp |} d1 = (Some e, d2)
          ∧ transErr = fmt_Errorf_w "db set session info fail, session id:%s, error:%w"
                         [Batch_Hash batchTask] e)
     ∨ (∃ d1 d2,
          batchOrm_UpdateProvingStatus bp (Batch_Hash batchTask) ProvingTaskAssigned d
          = (None, d1)
          ∧ proverTaskOrm_SetProverTask bp
              {| TaskID := Batch_Hash batchTask;
                 ProverPublicKey := publicKey;
                 TaskType := ProofTypeBatch;
                 ProverName := proverName;
                 ProvingStatus_ := ProverAssigned;
                 FailureType := ProverTaskFailureTypeUndefined;
                 AssignedAt := utils_NowUTC bp |} d1 = (None, d2)
          ∧ db_Commit bp d2 = Some transErr)).
Proof.
  intros Hget Hguard Hpk Hpn.
  unfold Collect. rewrite Hget. simpl. rewrite Hguard. simpl. rewrite Hpk, Hpn.
  unfold Transaction, assignment, exec. simpl.
  destruct (db_Begin bp d) as [e|] eqn:Hbegin; simpl.
  { intros Herr. inversion Herr; subst. repeat split; try reflexivity. left. reflexivity. }
  destruct (batchOrm_UpdateProvingStatus bp (Batch_Hash batchTask) ProvingTaskAssigned d)
    as [[e|] d1] eqn:Hupdate; simpl.
  { intros Herr. inversion Herr; subst. repeat split; try reflexivity.
    right. left. eauto. }
  match goal with
  | |- context [proverTaskOrm_SetProverTask bp ?t d1] =>
      destruct (proverTaskOrm_SetProverTask bp t d1) as [[e|] d2] eqn:Hinsert; simpl
  end.
  { intros Herr. inversion Herr; subst. repeat split; try reflexivity.
    right. right. left. exists e, d1, d2.
    split; [reflexivity|]. split; [exact Hinsert|reflexivity]. }
  destruct (db_Commit bp d2) as [e|] eqn:Hcommit; simpl; [|discriminate].
  intros Herr. inversion Herr; subst. repeat split; try reflexivity.
  right. right. right. exists d1, d2.
  split; [reflexivity|]. split; [exact Hinsert|exact Hcommit].
Qed.

Lemma Collect_transaction_failure_witness :
  let bp := mem.collector
              {| mem.ignores_limit := false; mem.update_fails := false;
                 mem.insert_fails := false; mem.commit_fails := true |} 3 1000 in
  (Collect bp (mem.request "0xkey" "alice") (mem.connect fixture.waiting)).1
    = Return (None, Some (errors_New "commit failed"))
  ∧ committed (Collect bp (mem.request "0xkey" "alice") (mem.connect fixture.waiting)).2
    = fixture.waiting.
Proof.
  intros bp.
  destruct (Collect_transaction_failure bp (mem.request "0xkey" "alice")
              (mem.connect fixture.waiting) (fixture.unassigned 1 "0xb1") "0xkey" "alice"
              fixture.waiting (errors_New "commit failed"))
    as (Hrun & Hstore & _).
  - reflexivity.
  - reflexivity.
  - reflexivity.
  - reflexivity.
  - reflexivity.
  - split; [exact Hrun|exact Hstore].
Defined.
